(** * Extraction and tabulation scripts of the rekordbox utilities

    A shallow embedding of the three scripts
    - [playlist_to_sheets.py]  (playlist variant),
    - [tests/spotify_recent_likes.py]  (liked-tracks variant),
    - [tests/xml_to_sheets.py]  (file variant),
    together with the properties their specification states about them.

    Python [str] values are sequences of Unicode code points; external
    collaborators (streaming API, spreadsheet service, standard output)
    are explicit state. *)

From Stdlib Require Import NArith ZArith List String Ascii Bool Lia.
From Stdlib Require Import DecimalString.
From stdpp Require Import gmap.
Import ListNotations.

Set Default Proof Using "Type".
Local Open Scope list_scope.

(* ===================================================================== *)
(** * Python values *)
(* ===================================================================== *)

(** A Python string is a list of code points. *)
Abbreviation char := N (only parsing).
Abbreviation pystr := (list N) (only parsing).

(** ASCII literals of the source, as code-point lists. *)
Definition str (s : string) : pystr :=
  List.map N_of_ascii (list_ascii_of_string s).

Definition chr (a : ascii) : char := N_of_ascii a.

(** Exceptions the scripts raise or catch. *)
Inductive exn : Type :=
| ValueError (msg : pystr)
| WorksheetNotFound (title : pystr)
| RuntimeError (msg : pystr)
| APIError (msg : pystr)
| SystemExit (msg : pystr).

Inductive result (A : Type) : Type :=
| Ok (a : A)
| Raise (e : exn).
Arguments Ok {A} a.
Arguments Raise {A} e.

Definition in_range (lo hi c : char) : bool :=
  (N.leb lo c) && (N.leb c hi).

(** The class [[a-zA-Z0-9]]. *)
Definition ascii_alnum (c : char) : bool :=
  in_range 97 122 c || in_range 65 90 c || in_range 48 57 c.

(** [s.split(sep)] for a one-character separator. *)
Fixpoint split (sep : char) (s : pystr) : list pystr :=
  match s with
  | [] => [[]]
  | c :: s' =>
      if N.eqb c sep then [] :: split sep s'
      else match split sep s' with
           | p :: ps => (c :: p) :: ps
           | [] => [[c]]
           end
  end.

(** [l[0]] on the result of a split (never empty). *)
Definition item0 (l : list pystr) : pystr := List.nth 0 l [].

(** [", ".join(parts)] and friends. *)
Fixpoint join (sep : pystr) (parts : list pystr) : pystr :=
  match parts with
  | [] => []
  | [p] => p
  | p :: ps => p ++ sep ++ join sep ps
  end.

(* ===================================================================== *)
(** * The regular expressions of [extract_playlist_id] *)
(* ===================================================================== *)

Module Re.

(** Both patterns have the shape [literal([class]+)]: a literal text
    followed by one capturing group of a greedy, non-empty run of one
    character class. *)
Record Pattern : Type := mkPattern {
  literal : pystr;
  klass : char -> bool
}.

(** Consume [p] at the head of [s]. *)
Fixpoint starts_with (p s : pystr) : option pystr :=
  match p with
  | [] => Some s
  | a :: p' =>
      match s with
      | [] => None
      | b :: s' => if N.eqb a b then starts_with p' s' else None
      end
  end.

(** The greedy run [[class]*] at the head of [s], and what follows. *)
Fixpoint span (f : char -> bool) (s : pystr) : pystr * pystr :=
  match s with
  | [] => ([], [])
  | c :: s' =>
      if f c then let '(g, r) := span f s' in (c :: g, r)
      else ([], s)
  end.

(** Match anchored at the head of [s]; the result is group 1. *)
Definition match_at (p : Pattern) (s : pystr) : option pystr :=
  match starts_with (literal p) s with
  | None => None
  | Some rest =>
      match span (klass p) rest with
      | ([], _) => None
      | (g, _) => Some g
      end
  end.

(** [re.search]: the match at the leftmost position that has one. *)
Fixpoint search (p : Pattern) (s : pystr) : option pystr :=
  match match_at p s with
  | Some g => Some g
  | None =>
      match s with
      | [] => None
      | _ :: s' => search p s'
      end
  end.

(** [re.sub] for a pattern that is one character class: every character
    of the class is a match (matches are found left to right and do not
    overlap) and is replaced by [repl]; the others are copied. *)
Fixpoint sub (f : char -> bool) (repl : pystr) (s : pystr) : pystr :=
  match s with
  | [] => []
  | c :: s' => if f c then repl ++ sub f repl s' else c :: sub f repl s'
  end.

End Re.

(* ===================================================================== *)
(** * playlist_to_sheets.py: [extract_playlist_id] *)
(* ===================================================================== *)

Definition patterns : list Re.Pattern :=
  [ Re.mkPattern (str "playlist/") ascii_alnum;
    Re.mkPattern (str "playlist:") ascii_alnum ].

(** The [for pattern in patterns] loop: first pattern that matches wins. *)
Fixpoint first_match (ps : list Re.Pattern) (url : pystr) : option pystr :=
  match ps with
  | [] => None
  | p :: ps' =>
      match Re.search p url with
      | Some g => Some g
      | None => first_match ps' url
      end
  end.

Definition strip_query_fragment (playlist_url : pystr) : pystr :=
  item0 (split (chr "#") (item0 (split (chr "?") playlist_url))).

Definition extract_playlist_id (playlist_url : pystr) : result pystr :=
  let playlist_url := strip_query_fragment playlist_url in
  match first_match patterns playlist_url with
  | Some id => Ok id
  | None =>
      Raise (ValueError
               (str "Could not extract playlist ID from URL: " ++ playlist_url))
  end.


(* ===================================================================== *)
(** * The Python runtime the scripts rely on *)
(* ===================================================================== *)

(** [datetime] objects, as far as the scripts read them. *)
Record datetime : Type := mkDatetime {
  year : nat; month : nat; day : nat;
  hour : nat; minute : nat; second : nat
}.

(** What the interpreter and its standard library provide and the scripts
    take as given: the Unicode character database beyond ASCII, the
    parser behind [int(...)], and [datetime.fromisoformat] with, for a
    string it rejects, the text of the [ValueError] it raises (which
    depends on what is wrong with the string). *)
Class Python : Type := {
  uni_alnum : char -> bool;
  uni_space : char -> bool;
  py_int : pystr -> option Z;
  fromisoformat : pystr -> option datetime;
  isoformat_error : pystr -> pystr
}.

(** [Py_UNICODE_ISSPACE] on ASCII: TAB..CR, FS..US and the blank. *)
Definition ascii_space (c : char) : bool :=
  in_range 9 13 c || in_range 28 32 c.

Definition is_ascii (c : char) : bool := N.ltb c 128.

Section Unicode.
Context `{Python}.

Definition isalnum (c : char) : bool :=
  if is_ascii c then ascii_alnum c else uni_alnum c.

Definition isspace (c : char) : bool :=
  if is_ascii c then ascii_space c else uni_space c.

(** [\w] on [str] patterns. *)
Definition is_word (c : char) : bool := isalnum c || N.eqb c 95.

(** The class [[^\w\s-]]. *)
Definition not_word_space_hyphen (c : char) : bool :=
  negb (is_word c || isspace c || N.eqb c 45).

Fixpoint lstrip (s : pystr) : pystr :=
  match s with
  | [] => []
  | c :: s' => if isspace c then lstrip s' else s
  end.

Definition rstrip (s : pystr) : pystr := List.rev (lstrip (List.rev s)).

(** [s.strip()] *)
Definition strip (s : pystr) : pystr := rstrip (lstrip s).
End Unicode.

(** [s.replace(old, new)] for a one-character [old]. *)
Fixpoint replace (old : char) (new : pystr) (s : pystr) : pystr :=
  match s with
  | [] => []
  | c :: s' => if N.eqb c old then new ++ replace old new s'
               else c :: replace old new s'
  end.

(** [str(n)] for a non-negative integer. *)
Definition dec (n : nat) : pystr :=
  str (NilZero.string_of_uint (Nat.to_uint n)).

(** [str(z)] for an integer. *)
Definition dec_int (z : Z) : pystr :=
  str (NilZero.string_of_int (Z.to_int z)).

Definition pad_left (fill : char) (width : nat) (s : pystr) : pystr :=
  List.repeat fill (width - List.length s) ++ s.

(** [strftime]: the directives the scripts use ([%Y %m %d %H %M]) are
    zero-padded decimal fields of the object itself (no conversion to
    another time zone); any other character of the format is copied.
    The year is padded to four digits, which only shows before year
    1000. *)
Fixpoint strftime (fmt : pystr) (d : datetime) : pystr :=
  match fmt with
  | [] => []
  | 37%N :: 89%N :: fmt' => pad_left 48 4 (dec (year d)) ++ strftime fmt' d
  | 37%N :: 109%N :: fmt' => pad_left 48 2 (dec (month d)) ++ strftime fmt' d
  | 37%N :: 100%N :: fmt' => pad_left 48 2 (dec (day d)) ++ strftime fmt' d
  | 37%N :: 72%N :: fmt' => pad_left 48 2 (dec (hour d)) ++ strftime fmt' d
  | 37%N :: 77%N :: fmt' => pad_left 48 2 (dec (minute d)) ++ strftime fmt' d
  | c :: fmt' => c :: strftime fmt' d
  end.

(** Truth value of an optional string: [None] and [""] are false. *)
Definition truthy (o : option pystr) : bool :=
  match o with
  | Some (_ :: _) => true
  | _ => false
  end.

(** [os.getenv] over the process environment. *)
Definition getenv (env : gmap pystr pystr) (var : pystr) : option pystr :=
  env !! var.

(** The first variable of [vars] that is unset or empty. *)
Fixpoint first_unset (env : gmap pystr pystr) (vars : list pystr)
  : option pystr :=
  match vars with
  | [] => None
  | var :: vars' =>
      if truthy (getenv env var) then first_unset env vars' else Some var
  end.

(* ===================================================================== *)
(** * The streaming API *)
(* ===================================================================== *)

(** Response records, with the documented field names.  A field the
    scripts test for null is an [option] ([None] is JSON [null]). *)
Record Artist : Type := mkArtist { artist_name : pystr }.

Record ExternalUrls : Type := mkExternalUrls { spotify : pystr }.

Record Track : Type := mkTrack {
  name : option pystr;
  artists : list Artist;
  external_urls : ExternalUrls
}.

Record PlaylistItem : Type := mkPlaylistItem { track : option Track }.

Record Page : Type := mkPage {
  items : list PlaylistItem;
  next : option pystr
}.

Record SavedItem : Type := mkSavedItem {
  added_at : pystr;
  saved_track : Track
}.

Inductive Request : Type :=
| GetPlaylist (playlist_id : pystr)
| GetPlaylistTracks (playlist_id : pystr)
| GetNext (url : option pystr)
| GetSavedTracks (limit : Z).

(** The client [sp] and the service behind it: what the service will
    answer, and the requests issued so far.  Page requests are answered
    from a sequence: [playlist_tracks] returns [first_page], every
    [next] call returns the following element of [later_pages]. *)
Record Spotify : Type := mkSpotify {
  playlist_name : pystr;
  first_page : Page;
  later_pages : list Page;
  saved_tracks : Z -> list SavedItem;
  requests : list Request
}.

Definition issue (r : Request) (sp : Spotify) : Spotify :=
  mkSpotify (playlist_name sp) (first_page sp) (later_pages sp)
            (saved_tracks sp) (requests sp ++ [r]).

Definition with_later (ps : list Page) (sp : Spotify) : Spotify :=
  mkSpotify (playlist_name sp) (first_page sp) ps
            (saved_tracks sp) (requests sp).

Definition sp_playlist (playlist_id : pystr) (sp : Spotify)
  : pystr * Spotify :=
  (playlist_name sp, issue (GetPlaylist playlist_id) sp).

Definition sp_playlist_tracks (playlist_id : pystr) (sp : Spotify)
  : Page * Spotify :=
  (first_page sp, issue (GetPlaylistTracks playlist_id) sp).

(** [sp.next(results)]: one more request; a transport error when the
    service has nothing left to answer. *)
Definition sp_next (results : Page) (sp : Spotify)
  : result Page * Spotify :=
  let sp := issue (GetNext (next results)) sp in
  match later_pages sp with
  | p :: ps => (Ok p, with_later ps sp)
  | [] => (Raise (APIError (str "http status: 404")), sp)
  end.

Definition sp_current_user_saved_tracks (limit : Z) (sp : Spotify)
  : list SavedItem * Spotify :=
  (saved_tracks sp limit, issue (GetSavedTracks limit) sp).

(* ===================================================================== *)
(** * playlist_to_sheets.py: [get_playlist_data] *)
(* ===================================================================== *)

(** The dictionaries appended to [tracks]. *)
Record SongEntry : Type := mkSongEntry {
  song : pystr;
  spotify_url : pystr
}.

Definition artist_names (t : Track) : pystr :=
  join (str ", ") (List.map artist_name (artists t)).

(** The body of [for item in results['items']]: the entry appended for
    [item], if the guard [item['track'] and item['track']['name']]
    holds. *)
Definition song_entry (item : PlaylistItem) : option SongEntry :=
  match track item with
  | None => None
  | Some t =>
      match name t with
      | Some (c :: title) =>
          let song_info := (c :: title) ++ str " - " ++ artist_names t in
          Some (mkSongEntry song_info (spotify (external_urls t)))
      | _ => None
      end
  end.

(** One pass of the inner [for] loop over a page's items. *)
Fixpoint append_items (tracks : list SongEntry) (its : list PlaylistItem)
  : list SongEntry :=
  match its with
  | [] => tracks
  | item :: its' =>
      match song_entry item with
      | Some e => append_items (tracks ++ [e]) its'
      | None => append_items tracks its'
      end
  end.

(** The [while results] loop.  [results] is a page dictionary, hence
    always true; the loop ends at the [break].  The recursion follows the
    answers the service still holds. *)
Fixpoint page_loop (pending : list Page) (results : Page)
         (tracks : list SongEntry) (sp : Spotify)
  : result (list SongEntry) * Spotify :=
  let tracks := append_items tracks (items results) in
  if truthy (next results) then
    match pending with
    | [] => (Raise (APIError (str "http status: 404")),
             issue (GetNext (next results)) sp)
    | p :: pending' =>
        page_loop pending' p tracks
          (with_later pending' (issue (GetNext (next results)) sp))
    end
  else (Ok tracks, sp).

(** [get_playlist_data], from the authenticated client [sp] on. *)
Definition get_playlist_data (playlist_url : pystr) (sp : Spotify)
  : result (pystr * list SongEntry) * Spotify :=
  match extract_playlist_id playlist_url with
  | Raise e => (Raise e, sp)
  | Ok playlist_id =>
      let '(playlist_name, sp) := sp_playlist playlist_id sp in
      let '(results, sp) := sp_playlist_tracks playlist_id sp in
      match page_loop (later_pages sp) results [] sp with
      | (Ok tracks, sp) => (Ok (playlist_name, tracks), sp)
      | (Raise e, sp) => (Raise e, sp)
      end
  end.

(* ===================================================================== *)
(** * The spreadsheet service, the XML document, the process *)
(* ===================================================================== *)

Inductive cell : Type :=
| CInt (z : Z)
| CStr (s : pystr).

Record Worksheet : Type := mkWorksheet {
  ws_rows : nat;
  ws_cols : nat;
  ws_values : list (list cell)
}.

Inductive SheetOp : Type :=
| DelWorksheet (title : pystr)
| AddWorksheet (title : pystr) (rows cols : nat)
| UpdateCells (title : pystr) (values : list (list cell)).

(** A spreadsheet: its worksheets by title, and the modifying calls it
    has received. *)
Record Spreadsheet : Type := mkSpreadsheet {
  worksheets : gmap pystr Worksheet;
  url : pystr;
  ops : list SheetOp
}.

(** A parsed XML element. *)
#[warnings="-register-all"] Inductive Element : Type :=
| Elem (tag : pystr) (attrib : gmap pystr pystr) (children : list Element).

Definition tag_of (e : Element) : pystr :=
  match e with Elem t _ _ => t end.
Definition attrib_of (e : Element) : gmap pystr pystr :=
  match e with Elem _ a _ => a end.

(** All elements strictly below [e], in document order. *)
Fixpoint descendants (e : Element) : list Element :=
  match e with
  | Elem _ _ cs => List.flat_map (fun c => c :: descendants c) cs
  end.

Definition pystr_eqb (a b : pystr) : bool := bool_decide (a = b).

(** [e.findall(".//" + t)] *)
Definition findall_desc (t : pystr) (e : Element) : list Element :=
  List.filter (fun c => pystr_eqb (tag_of c) t) (descendants e).

(** Everything a run of a script can read or change. *)
Record World : Type := mkWorld {
  w_env : gmap pystr pystr;
  w_argv : list pystr;
  w_stdin : pystr;
  w_now : datetime;
  w_xml : Element;
  w_sp : Spotify;
  w_ss : Spreadsheet;
  w_out : list pystr
}.

Definition set_sp (sp : Spotify) (w : World) : World :=
  mkWorld (w_env w) (w_argv w) (w_stdin w) (w_now w) (w_xml w)
          sp (w_ss w) (w_out w).
Definition set_ss (ss : Spreadsheet) (w : World) : World :=
  mkWorld (w_env w) (w_argv w) (w_stdin w) (w_now w) (w_xml w)
          (w_sp w) ss (w_out w).
Definition set_out (out : list pystr) (w : World) : World :=
  mkWorld (w_env w) (w_argv w) (w_stdin w) (w_now w) (w_xml w)
          (w_sp w) (w_ss w) out.

(** Computations of a script: they change the world and return or
    raise. *)
Definition M (A : Type) : Type := World -> result A * World.

Definition ret {A} (a : A) : M A := fun w => (Ok a, w).
Definition raise {A} (e : exn) : M A := fun w => (Raise e, w).
Definition bind {A B} (m : M A) (k : A -> M B) : M B :=
  fun w =>
    match m w with
    | (Ok a, w') => k a w'
    | (Raise e, w') => (Raise e, w')
    end.

(** [try: m except: h] *)
Definition try_except {A} (m : M A) (h : exn -> M A) : M A :=
  fun w =>
    match m w with
    | (Ok a, w') => (Ok a, w')
    | (Raise e, w') => h e w'
    end.

Declare Scope py_scope.
Delimit Scope py_scope with py.
Notation "x <- m ;; k" := (bind m (fun x => k))
  (at level 100, m at next level, right associativity) : py_scope.
Notation "m ;; k" := (bind m (fun _ => k))
  (at level 100, right associativity) : py_scope.
Local Open Scope py_scope.

Definition read {A} (f : World -> A) : M A := fun w => (Ok (f w), w).

Definition print (line : pystr) : M unit :=
  fun w => (Ok tt, set_out (w_out w ++ [line]) w).

Definition sys_exit {A} (msg : pystr) : M A := raise (SystemExit msg).

(** [str(e)] *)
Definition exn_str (e : exn) : pystr :=
  match e with
  | ValueError m | WorksheetNotFound m | RuntimeError m
  | APIError m | SystemExit m => m
  end.

(** Calls on the spreadsheet.  A worksheet handle is its title. *)
Definition ss_worksheet (title : pystr) : M pystr :=
  fun w =>
    match worksheets (w_ss w) !! title with
    | Some _ => (Ok title, w)
    | None => (Raise (WorksheetNotFound title), w)
    end.

Definition log_op (o : SheetOp) (m : gmap pystr Worksheet)
           (ss : Spreadsheet) : Spreadsheet :=
  mkSpreadsheet m (url ss) (ops ss ++ [o]).

Definition ss_del_worksheet (ws : pystr) : M unit :=
  fun w =>
    (Ok tt,
     set_ss (log_op (DelWorksheet ws) (delete ws (worksheets (w_ss w)))
                    (w_ss w)) w).

(** The service refuses a second worksheet of the same title. *)
Definition ss_add_worksheet (title : pystr) (rows cols : nat) : M pystr :=
  fun w =>
    match worksheets (w_ss w) !! title with
    | Some _ => (Raise (APIError (str "duplicate sheet name")), w)
    | None =>
        (Ok title,
         set_ss (log_op (AddWorksheet title rows cols)
                        (<[title := mkWorksheet rows cols []]>
                           (worksheets (w_ss w)))
                        (w_ss w)) w)
    end.

(** [ws.update("A1", values)] *)
Definition ws_update (ws : pystr) (values : list (list cell)) : M unit :=
  fun w =>
    match worksheets (w_ss w) !! ws with
    | None => (Raise (APIError (str "no such sheet")), w)
    | Some old =>
        (Ok tt,
         set_ss (log_op (UpdateCells ws values)
                        (<[ws := mkWorksheet (ws_rows old) (ws_cols old)
                                             values]>
                           (worksheets (w_ss w)))
                        (w_ss w)) w)
    end.

(** Lifting the calls on the API client. *)
Definition with_sp {A} (f : Spotify -> A * Spotify) : M A :=
  fun w => let '(a, sp) := f (w_sp w) in (Ok a, set_sp sp w).

Definition with_sp_result {A} (f : Spotify -> result A * Spotify) : M A :=
  fun w => let '(r, sp) := f (w_sp w) in (r, set_sp sp w).

(* ===================================================================== *)
(** * playlist_to_sheets.py: [create_sheets_worksheet] and [main] *)
(* ===================================================================== *)

Definition quoted (s : pystr) : pystr := str "'" ++ s ++ str "'".

(** [sheet_name[:100]] *)
Definition truncate100 (sheet_name : pystr) : pystr :=
  if Nat.ltb 100 (List.length sheet_name) then List.firstn 100 sheet_name
  else sheet_name.

(** Lines 111-113: the worksheet title made from the playlist name. *)
Definition sheet_name_of `{Python} (playlist_name : pystr) : pystr :=
  let sheet_name :=
    strip (Re.sub not_word_space_hyphen [] playlist_name) in
  truncate100 sheet_name.

(** Lines 116-121 (and lines 62-67 of the file variant). *)
Definition delete_existing (sheet_name : pystr) : M unit :=
  try_except
    (old_ws <- ss_worksheet sheet_name ;;
     ss_del_worksheet old_ws ;;
     print (str "Deleted existing worksheet " ++ quoted sheet_name
              ++ str "."))
    (fun e =>
       match e with
       | WorksheetNotFound _ => ret tt
       | _ => raise e
       end).

Definition header : list cell :=
  [CStr (str "Track #"); CStr (str "Song"); CStr (str "Spotify Link")].

(** [for i, track in enumerate(tracks, 1): rows.append([...])] *)
Fixpoint append_rows (rows : list (list cell)) (i : Z)
         (tracks : list SongEntry) : list (list cell) :=
  match tracks with
  | [] => rows
  | t :: tracks' =>
      append_rows (rows ++ [[CInt i; CStr (song t); CStr (spotify_url t)]])
                  (i + 1) tracks'
  end.

(** [create_sheets_worksheet]; opening the spreadsheet with the service
    account is the collaborator's business, the function starts from the
    opened spreadsheet [w_ss]. *)
Definition create_sheets_worksheet `{Python} (playlist_name : pystr)
           (tracks : list SongEntry) : M unit :=
  let sheet_name := sheet_name_of playlist_name in
  delete_existing sheet_name ;;
  ws <- ss_add_worksheet sheet_name (List.length tracks + 1) 3 ;;
  let rows := append_rows [header] 1 tracks in
  ws_update ws rows ;;
  print (str "Created worksheet " ++ quoted sheet_name ++ str " with "
           ++ dec (List.length tracks) ++ str " tracks.") ;;
  ss <- read w_ss ;;
  print (str "Spreadsheet URL: " ++ url ss).

Definition required_vars : list pystr :=
  [ str "SPOTIFY_CLIENT_ID"; str "SPOTIFY_CLIENT_SECRET";
    str "SPOTIFY_REDIRECT_URI"; str "GDRIVE_CREDENTIALS_PATH";
    str "SPREADSHEET_ID" ].

Definition not_set_message (var : pystr) : pystr :=
  str "Error: " ++ var ++ str " is not set in your .env or environment.".

(** [for var in ...: if not os.getenv(var): sys.exit(...)] *)
Definition check_env (vars : list pystr) : M unit :=
  env <- read w_env ;;
  match first_unset env vars with
  | Some var => sys_exit (not_set_message var)
  | None => ret tt
  end.

(** [except Exception as e: sys.exit(f"Error: {e}")]; [SystemExit] is
    not an [Exception]. *)
Definition exit_on_exception (e : exn) : M unit :=
  match e with
  | SystemExit _ => raise e
  | _ => sys_exit (str "Error: " ++ exn_str e)
  end.

(** [main].  The prompt of [input] is not recorded; [w_stdin] is the
    line the user types. *)
Definition playlist_main `{Python} : M unit :=
  check_env required_vars ;;
  line <- read w_stdin ;;
  let playlist_url := strip line in
  match playlist_url with
  | [] => sys_exit (str "Error: No playlist URL provided.")
  | _ =>
      try_except
        (print (str "Fetching playlist data from Spotify...") ;;
         data <- with_sp_result (get_playlist_data playlist_url) ;;
         let '(playlist_name, tracks) := data in
         match tracks with
         | [] => print (str "No tracks found in the playlist.")
         | _ =>
             print (str "Found playlist " ++ quoted playlist_name
                      ++ str " with " ++ dec (List.length tracks)
                      ++ str " tracks.") ;;
             print (str "Creating Google Sheets worksheet...") ;;
             create_sheets_worksheet playlist_name tracks ;;
             print (str "Done!")
         end)
        exit_on_exception
  end.

(* ===================================================================== *)
(** * tests/spotify_recent_likes.py *)
(* ===================================================================== *)

Definition DEFAULT_LIMIT : Z := 20.

(** The dictionaries appended to [parsed]. *)
Record Liked : Type := mkLiked {
  title : option pystr;
  liked_artists : pystr;
  liked_added_at : datetime;
  liked_url : pystr
}.

(** [l[:n]] for an integer [n] of either sign. *)
Definition slice_to {A} (l : list A) (n : Z) : list A :=
  if (n <? 0)%Z
  then List.firstn (Z.to_nat (Z.of_nat (List.length l) + n)) l
  else List.firstn (Z.to_nat n) l.

(** The [for item in results["items"][:limit]] loop;
    [fromisoformat] raises its [ValueError] on a string it rejects. *)
Fixpoint parse_saved `{Python} (parsed : list Liked) (its : list SavedItem)
  : result (list Liked) :=
  match its with
  | [] => Ok parsed
  | item :: its' =>
      let iso := replace (chr "Z") (str "+00:00") (added_at item) in
      match fromisoformat iso with
      | None =>
          Raise (ValueError (isoformat_error iso))
      | Some added =>
          let t := saved_track item in
          parse_saved
            (parsed ++ [mkLiked (name t) (artist_names t) added
                                (spotify (external_urls t))])
            its'
      end
  end.

(** [fetch_recent_liked], from the authenticated client on. *)
Definition fetch_recent_liked `{Python} (limit : Z) : M (list Liked) :=
  results <- with_sp (sp_current_user_saved_tracks limit) ;;
  fun w => (parse_saved [] (slice_to results limit), w).

(** [f"{x}"] for a string that may be [None]. *)
Definition fmt (o : option pystr) : pystr :=
  match o with
  | Some s => s
  | None => str "None"
  end.

Definition em_dash : char := 8212.

(** The line printed for entry [t] at index [i]. *)
Definition liked_line (i : Z) (t : Liked) : pystr :=
  let date_str := strftime (str "%Y-%m-%d %H:%M") (liked_added_at t) in
  pad_left 32 2 (dec_int i) ++ str ". " ++ fmt (title t)
    ++ [32%N; em_dash; 32%N] ++ liked_artists t
    ++ str " (added " ++ date_str ++ str ")".

(** [for i, t in enumerate(recent, 1): print(...)] *)
Fixpoint print_liked (i : Z) (recent : list Liked) : M unit :=
  match recent with
  | [] => ret tt
  | t :: recent' => print (liked_line i t) ;; print_liked (i + 1) recent'
  end.

Definition likes_required_vars : list pystr :=
  [ str "SPOTIFY_CLIENT_ID"; str "SPOTIFY_CLIENT_SECRET";
    str "SPOTIFY_REDIRECT_URI" ].

Definition usage : pystr :=
  str "Usage: python recent_likes.py [number_of_tracks]".

(** Lines 56-59: the optional argument. *)
Definition parse_limit `{Python} : M Z :=
  argv <- read w_argv ;;
  match argv with
  | _ :: arg :: _ =>
      match py_int arg with
      | Some limit => ret limit
      | None => sys_exit usage
      end
  | _ => ret DEFAULT_LIMIT
  end.

(** [main] of the liked-tracks script. *)
Definition likes_main `{Python} : M unit :=
  check_env likes_required_vars ;;
  limit <- parse_limit ;;
  recent <- fetch_recent_liked limit ;;
  match recent with
  | [] => print (str "No saved tracks found.")
  | _ =>
      print ([10%N] ++ str "Your " ++ dec (List.length recent)
               ++ str " most-recent liked songs:" ++ [10%N]) ;;
      print_liked 1 recent ;;
      print []
  end.

(* ===================================================================== *)
(** * tests/xml_to_sheets.py *)
(* ===================================================================== *)

Definition FIELDS : list pystr :=
  [ str "TrackID"; str "Name"; str "Artist";
    str "Album"; str "Genre"; str "TotalTime";
    str "AverageBpm"; str "DateAdded";
    str "PlayCount"; str "Rating"; str "Location" ].

(** [attrib.get(f, "")] *)
Definition get_default (attrib : gmap pystr pystr) (f : pystr) : pystr :=
  match attrib !! f with
  | Some v => v
  | None => []
  end.

(** [[ attrib.get(f, "") for f in FIELDS ]] *)
Definition track_row (t : Element) : list pystr :=
  List.map (get_default (attrib_of t)) FIELDS.

(** [for track in root.findall(".//TRACK"): rows.append(row)] *)
Fixpoint collect_rows (rows : list (list pystr)) (ts : list Element)
  : list (list pystr) :=
  match ts with
  | [] => rows
  | t :: ts' => collect_rows (rows ++ [track_row t]) ts'
  end.

Definition cells (row : list pystr) : list cell := List.map CStr row.

(** Lines 18-23: the three configuration values, checked in order. *)
Fixpoint xml_check_env (env : gmap pystr pystr) (vars : list pystr)
  : M unit :=
  match vars with
  | [] => ret tt
  | var :: vars' =>
      if truthy (getenv env var) then xml_check_env env vars'
      else raise (RuntimeError
                    (var ++ str " is not set in .env or environment"))
  end.

Definition xml_required_vars : list pystr :=
  [ str "REKORDBOX_XML_PATH"; str "GDRIVE_CREDENTIALS_PATH";
    str "SPREADSHEET_ID" ].

(** The module body of the script. *)
Definition xml_to_sheets : M unit :=
  env <- read w_env ;;
  xml_check_env env xml_required_vars ;;
  print (str "Loading XML from " ++ get_default env (str "REKORDBOX_XML_PATH")
           ++ [8230%N]) ;;
  root <- read w_xml ;;
  let rows := collect_rows [] (findall_desc (str "TRACK") root) in
  print (str "Found " ++ dec (List.length rows) ++ str " tracks.") ;;
  now <- read w_now ;;
  let sheet_name := strftime (str "%Y-%m-%d") now in
  delete_existing sheet_name ;;
  ws <- ss_add_worksheet sheet_name (List.length rows + 1)
                         (List.length FIELDS) ;;
  let payload := List.map cells (FIELDS :: rows) in
  ws_update ws payload ;;
  print (str "Wrote " ++ dec (List.length rows) ++ str " rows to "
           ++ quoted sheet_name ++ str ".") ;;
  print (str "Done! Your sheet is here:") ;;
  ss <- read w_ss ;;
  print (url ss).

(* ===================================================================== *)
(** * A runtime for the examples *)
(* ===================================================================== *)

Definition digit_val (c : char) : option Z :=
  if in_range 48 57 c then Some (Z.of_N c - 48)%Z else None.

Fixpoint digits_val (acc : Z) (s : pystr) : option Z :=
  match s with
  | [] => Some acc
  | c :: s' =>
      match digit_val c with
      | Some d => digits_val (10 * acc + d) s'
      | None => None
      end
  end.

(** Integers written as an optional sign and ASCII digits. *)
Definition simple_int (s : pystr) : option Z :=
  match s with
  | [] => None
  | c :: ds =>
      if N.eqb c 45 then
        match ds with [] => None | _ => option_map Z.opp (digits_val 0 ds) end
      else if N.eqb c 43 then
        match ds with [] => None | _ => digits_val 0 ds end
      else digits_val 0 s
  end.

Definition field (s : pystr) (off len : nat) : option nat :=
  option_map Z.to_nat (digits_val 0 (List.firstn len (List.skipn off s))).

(** Timestamps written [YYYY-MM-DDTHH:MM:SS+00:00]. *)
Definition simple_iso (s : pystr) : option datetime :=
  if Nat.eqb (List.length s) 25
     && pystr_eqb (List.firstn 1 (List.skipn 4 s)) (str "-")
     && pystr_eqb (List.firstn 1 (List.skipn 7 s)) (str "-")
     && pystr_eqb (List.firstn 1 (List.skipn 10 s)) (str "T")
     && pystr_eqb (List.firstn 1 (List.skipn 13 s)) (str ":")
     && pystr_eqb (List.firstn 1 (List.skipn 16 s)) (str ":")
     && pystr_eqb (List.skipn 19 s) (str "+00:00")
  then
    match field s 0 4, field s 5 2, field s 8 2,
          field s 11 2, field s 14 2, field s 17 2 with
    | Some y, Some mo, Some d, Some h, Some mi, Some sec =>
        Some (mkDatetime y mo d h mi sec)
    | _, _, _, _, _, _ => None
    end
  else None.

(** A runtime that classifies no code point beyond ASCII and parses with
    the two functions above.  On ASCII text, on integers written as a
    sign and digits, on timestamps of the shape the service emits
    (["2024-01-02T03:04:05Z"]) and on a string that is no timestamp at
    all (["yesterday"], rejected with the text for a string of the
    wrong shape) it answers as CPython does; the examples use no other
    input. *)
Definition example_python : Python :=
  {| uni_alnum := fun _ => false;
     uni_space := fun _ => false;
     py_int := simple_int;
     fromisoformat := simple_iso;
     isoformat_error :=
       fun iso => str "Invalid isoformat string: " ++ quoted iso |}.

(* ===================================================================== *)
(** * What the specification says, in its own words *)
(* ===================================================================== *)

(** [u] is [s] with its query string and fragment removed: the part of
    [s] before the first ['?'] or ['#']. *)
Definition without_query_fragment (s u : pystr) : Prop :=
  (forall c, In c u -> c <> chr "?" /\ c <> chr "#") /\
  exists rest,
    s = u ++ rest /\
    match rest with
    | [] => True
    | c :: _ => c = chr "?" \/ c = chr "#"
    end.

(** The pattern [p] matches in [u] right after the prefix [pre] and
    captures [id]: the literal, then the longest non-empty run of the
    class. *)
Definition captures_at (p : Re.Pattern) (u pre id : pystr) : Prop :=
  exists post,
    u = pre ++ Re.literal p ++ id ++ post /\
    id <> [] /\
    Forall (fun c => Re.klass p c = true) id /\
    match post with
    | [] => True
    | c :: _ => Re.klass p c = false
    end.

(** [id] is what the leftmost match of [p] in [u] captures. *)
Definition captures (p : Re.Pattern) (u id : pystr) : Prop :=
  exists pre,
    captures_at p u pre id /\
    forall pre' id', captures_at p u pre' id' ->
                     List.length pre <= List.length pre'.

(** [p] matches nowhere in [u]. *)
Definition no_match (p : Re.Pattern) (u : pystr) : Prop :=
  forall pre id, ~ captures_at p u pre id.

Definition url_pattern : Re.Pattern :=
  Re.mkPattern (str "playlist/") ascii_alnum.
Definition uri_pattern : Re.Pattern :=
  Re.mkPattern (str "playlist:") ascii_alnum.

(** A record the playlist variant drops: its track payload is null, or
    its title is null or empty. *)
Definition dropped (item : PlaylistItem) : bool :=
  match track item with
  | None => true
  | Some t => negb (truthy (name t))
  end.

Definition kept (item : PlaylistItem) : bool := negb (dropped item).

(** The playlist layout: [[index, "title - artists", external_link]],
    indices counted from [i]. *)
Fixpoint numbered (i : Z) (tracks : list SongEntry) : list (list cell) :=
  match tracks with
  | [] => []
  | t :: tracks' =>
      [CInt i; CStr (song t); CStr (spotify_url t)] :: numbered (i + 1) tracks'
  end.

(** The first column of a block of rows. *)
Definition index_column (rows : list (list cell)) : list (option cell) :=
  List.map (fun r => List.nth_error r 0) rows.

(** The integers [1..n] as cells. *)
Definition one_to (n : nat) : list (option cell) :=
  List.map (fun k => Some (CInt (Z.of_nat k))) (List.seq 1 n).

(** [e] is the entry of the record [item]: the record has a track with
    a non-empty title, the song is ["title - artists"] with the artist
    names joined by [", "], and the link is the track's external
    link. *)
Definition is_entry_of (item : PlaylistItem) (e : SongEntry) : Prop :=
  exists t title,
    track item = Some t /\
    name t = Some title /\
    title <> [] /\
    song e = title ++ str " - "
               ++ join (str ", ") (List.map artist_name (artists t)) /\
    spotify_url e = spotify (external_urls t).

(** The entries one page contributes, in the page's order. *)
Definition page_entries (p : Page) : list SongEntry :=
  append_items [] (items p).

(** A sequence of pages as the service links them: the next-page
    indicator is set on every page but the last. *)
Fixpoint well_linked (chain : list Page) : Prop :=
  match chain with
  | [] => False
  | p :: chain' =>
      match chain' with
      | [] => truthy (next p) = false
      | _ :: _ => truthy (next p) = true /\ well_linked chain'
      end
  end.

(** The [next] requests a chain gives rise to: one per page that has a
    successor. *)
Definition next_requests (chain : list Page) : list Request :=
  List.map (fun p => GetNext (next p)) (List.removelast chain).

(** What one saved record normalizes to, when its timestamp parses. *)
Definition normalize `{Python} (item : SavedItem) : option Liked :=
  match fromisoformat (replace (chr "Z") (str "+00:00") (added_at item)) with
  | Some added =>
      Some (mkLiked (name (saved_track item))
                    (join (str ", ")
                          (List.map artist_name (artists (saved_track item))))
                    added
                    (spotify (external_urls (saved_track item))))
  | None => None
  end.

(** The console lines of the liked-tracks variant, numbered from [i]. *)
Fixpoint liked_lines (i : Z) (recent : list Liked) : list pystr :=
  match recent with
  | [] => []
  | t :: recent' => liked_line i t :: liked_lines (i + 1) recent'
  end.

(** [sub] occurs in [s]. *)
Definition infix_of (sub s : pystr) : Prop :=
  exists pre post, s = pre ++ sub ++ post.

Fixpoint infixb (sub s : pystr) : bool :=
  match Re.starts_with sub s with
  | Some _ => true
  | None =>
      match s with
      | [] => false
      | _ :: s' => infixb sub s'
      end
  end.

(** A timestamp written ["YYYY-MM-DD HH:MM"]. *)
Definition ymd_hm (d : datetime) : pystr :=
  pad_left 48 4 (dec (year d)) ++ str "-" ++ pad_left 48 2 (dec (month d))
    ++ str "-" ++ pad_left 48 2 (dec (day d)) ++ str " "
    ++ pad_left 48 2 (dec (hour d)) ++ str ":" ++ pad_left 48 2 (dec (minute d)).

(** The field ranges of a [datetime] object. *)
Definition valid_datetime (d : datetime) : bool :=
  Nat.leb 1 (year d) && Nat.ltb (year d) (100 * 100)
  && Nat.leb 1 (month d) && Nat.leb (month d) 12
  && Nat.leb 1 (day d) && Nat.leb (day d) 31
  && Nat.leb (hour d) 23 && Nat.leb (minute d) 59 && Nat.leb (second d) 59.

Definition is_digit (c : char) : bool := in_range 48 57 c.

(** The shape [dddd-dd-dd dd:dd]. *)
Definition ymd_hm_shape (s : pystr) : bool :=
  match s with
  | [y1; y2; y3; y4; a; m1; m2; b; d1; d2; sp; h1; h2; c; n1; n2] =>
      forallb is_digit [y1; y2; y3; y4; m1; m2; d1; d2; h1; h2; n1; n2]
      && N.eqb a 45 && N.eqb b 45 && N.eqb sp 32 && N.eqb c 58
  | _ => false
  end.


(** The characters a destination name may keep: alphanumerics, the
    underscore, whitespace and the hyphen. *)
Definition allowed `{Python} (c : char) : bool :=
  isalnum c || N.eqb c (chr "_") || isspace c || N.eqb c (chr "-").

(** [t] is [s] without its leading and trailing whitespace. *)
Definition trimmed `{Python} (s t : pystr) : Prop :=
  exists l r,
    s = l ++ t ++ r /\
    Forall (fun c => isspace c = true) l /\
    Forall (fun c => isspace c = true) r /\
    match t with [] => True | c :: _ => isspace c = false end /\
    match List.rev t with [] => True | c :: _ => isspace c = false end.

(** Zero-padded decimal of the given width, digits only. *)
Definition all_digits (width : nat) (n : nat) : bool :=
  Nat.eqb (List.length (pad_left 48 width (dec n))) width
  && forallb is_digit (pad_left 48 width (dec n)).

(** What the delete step adds to the log and to the console when a
    worksheet of that title exists. *)
Definition deletion_ops (sheets : gmap pystr Worksheet) (title : pystr)
  : list SheetOp :=
  match sheets !! title with
  | Some _ => [DelWorksheet title]
  | None => []
  end.

Definition deletion_lines (sheets : gmap pystr Worksheet) (title : pystr)
  : list pystr :=
  match sheets !! title with
  | Some _ => [str "Deleted existing worksheet " ++ quoted title ++ str "."]
  | None => []
  end.

(** The world after a worksheet [title] of the given size and content
    has replaced whatever worksheet had that title. *)
Definition replaced (title : pystr) (rows cols : nat)
           (values : list (list cell)) (w : World) : World :=
  let sheets := worksheets (w_ss w) in
  set_out (w_out w ++ deletion_lines sheets title)
    (set_ss (mkSpreadsheet
               (<[title := mkWorksheet rows cols values]> sheets)
               (url (w_ss w))
               (ops (w_ss w) ++ deletion_ops sheets title
                  ++ [AddWorksheet title rows cols;
                      UpdateCells title values]))
            w).

(** The rows and the payload of the file variant. *)
Definition xml_rows (root : Element) : list (list pystr) :=
  collect_rows [] (findall_desc (str "TRACK") root).

Definition xml_payload (root : Element) : list (list cell) :=
  List.map cells (FIELDS :: xml_rows root).

(** The title the file variant gives its worksheet. *)
Definition xml_sheet_name (w : World) : pystr :=
  strftime (str "%Y-%m-%d") (w_now w).

(* ===================================================================== *)
(** * Mock data for the examples *)
(* ===================================================================== *)

Definition mock_track (n : pystr) : Track :=
  mkTrack (Some n) [mkArtist (str "A"); mkArtist (str "B")]
          (mkExternalUrls (str "https://open.spotify.com/track/" ++ n)).

Definition mock_page1 : Page :=
  mkPage [ mkPlaylistItem (Some (mock_track (str "one")));
           mkPlaylistItem None ]
         (Some (str "https://api.spotify.com/v1/playlists/p/tracks?offset=2")).

Definition mock_page2 : Page :=
  mkPage [ mkPlaylistItem (Some (mock_track []));
           mkPlaylistItem (Some (mock_track (str "two"))) ]
         None.

Definition mock_saved (k : nat) : SavedItem :=
  mkSavedItem (str "2024-01-02T03:04:05Z") (mock_track (dec k)).

(** A service holding two linked pages, and answering a saved-tracks
    request with 25 records whatever the limit. *)
Definition mock_sp : Spotify :=
  mkSpotify (str "My/Playlist: Summer '24!") mock_page1 [mock_page2]
            (fun _ => List.map mock_saved (List.seq 0 25)) [].

(** A service whose playlist has no usable record. *)
Definition empty_sp : Spotify :=
  mkSpotify (str "Empty") (mkPage [mkPlaylistItem None] None) []
            (fun _ => []) [].

Definition mock_env : gmap pystr pystr :=
  list_to_map
    [ (str "SPOTIFY_CLIENT_ID", str "id");
      (str "SPOTIFY_CLIENT_SECRET", str "secret");
      (str "SPOTIFY_REDIRECT_URI", str "http://localhost");
      (str "GDRIVE_CREDENTIALS_PATH", str "creds.json");
      (str "SPREADSHEET_ID", str "sheet");
      (str "REKORDBOX_XML_PATH", str "rekordbox.xml") ].

Definition mock_url : pystr :=
  str "https://open.spotify.com/playlist/37i9dQZF1DX0XUsuxWHRQd?si=1".

Definition mock_xml_empty : Element :=
  Elem (str "DJ_PLAYLISTS") ∅ [Elem (str "COLLECTION") ∅ []].

Definition mock_world (argv : list pystr) (sp : Spotify) : World :=
  mkWorld mock_env argv mock_url (mkDatetime 2025 4 26 10 30 0)
          mock_xml_empty sp
          (mkSpreadsheet ∅ (str "https://docs.google.com/spreadsheets/d/sheet") [])
          [].

(** A world with a chosen environment and input line. *)
Definition bare_world (env : gmap pystr pystr) (line : pystr)
           (sp : Spotify) : World :=
  mkWorld env [str "script.py"] line (mkDatetime 2025 4 26 10 30 0)
          mock_xml_empty sp
          (mkSpreadsheet ∅ (str "https://docs.google.com/spreadsheets/d/sheet") [])
          [].

(** A service whose second saved record carries a malformed timestamp. *)
Definition bad_timestamp_sp : Spotify :=
  mkSpotify (str "Likes") (mkPage [] None) []
            (fun _ => [ mock_saved 0;
                        mkSavedItem (str "yesterday") (mock_track (str "x"));
                        mock_saved 2 ])
            [].

(** A library document with three track elements, one of them nested. *)
Definition mock_xml_tracks : Element :=
  Elem (str "DJ_PLAYLISTS") ∅
       [ Elem (str "COLLECTION") ∅
              [ Elem (str "TRACK")
                     (list_to_map [(str "TrackID", str "1");
                                   (str "Name", str "One")])
                     [ Elem (str "TEMPO") ∅ [] ];
                Elem (str "TRACK")
                     (list_to_map [(str "TrackID", str "2")]) [] ];
         Elem (str "PLAYLISTS") ∅
              [ Elem (str "NODE") ∅
                     [ Elem (str "TRACK")
                            (list_to_map [(str "Key", str "1")]) [] ] ] ].

(** The same playlist as [mock_sp], served in one page. *)
Definition mock_sp_one_page : Spotify :=
  mkSpotify (str "My/Playlist: Summer '24!")
            (mkPage (items mock_page1 ++ items mock_page2) None) []
            (fun _ => []) [].

(* ===================================================================== *)
(** * Properties *)
(* ===================================================================== *)

(** ** Strings *)

Lemma split_nonempty sep s : split sep s <> [].
Proof.
  destruct s as [|c s]; simpl; [discriminate|].
  destruct (N.eqb c sep); [discriminate|].
  destruct (split sep s); discriminate.
Qed.

(** The first piece of a split is the text before the first separator. *)
Lemma item0_split sep s :
  (forall c, In c (item0 (split sep s)) -> c <> sep) /\
  exists rest,
    s = item0 (split sep s) ++ rest /\
    match rest with [] => True | c :: _ => c = sep end.
Proof.
  induction s as [|c s [IHno [rest [IHeq IHrest]]]]; simpl.
  - split; [intros c []|]. exists []. split; auto.
  - destruct (N.eqb_spec c sep) as [->|Hne]; simpl.
    + split; [intros c []|]. exists (sep :: s). split; auto.
    + pose proof (split_nonempty sep s) as Hs.
      unfold item0 in *.
      destruct (split sep s) as [|p ps]; [congruence|]. simpl in *.
      split.
      * intros c' [<-|Hin]; auto.
      * exists rest. split; [congruence|assumption].
Qed.

Lemma strip_query_fragment_spec s :
  without_query_fragment s (strip_query_fragment s).
Proof.
  unfold without_query_fragment, strip_query_fragment.
  destruct (item0_split (chr "?") s) as [Hq [r1 [E1 R1]]].
  set (a := item0 (split (chr "?") s)) in *.
  destruct (item0_split (chr "#") a) as [Hh [r2 [E2 R2]]].
  set (b := item0 (split (chr "#") a)) in *.
  split.
  - intros c Hc. split; [|now apply Hh].
    apply Hq. rewrite E2. apply in_or_app. now left.
  - exists (r2 ++ r1). split.
    + rewrite E1 at 1. rewrite E2 at 1. now rewrite <- app_assoc.
    + destruct r2 as [|c r2']; simpl.
      * destruct r1; auto.
      * now right.
Qed.

(** ** The regular expressions *)

Lemma starts_with_spec p s r :
  Re.starts_with p s = Some r <-> s = p ++ r.
Proof.
  revert s. induction p as [|a p IH]; intros s; simpl.
  - split; congruence.
  - destruct s as [|b s]; [split; discriminate|].
    destruct (N.eqb_spec a b) as [->|Hne].
    + rewrite IH. split; congruence.
    + split; [discriminate|congruence].
Qed.

Lemma span_spec f s g r :
  Re.span f s = (g, r) ->
  s = g ++ r /\
  Forall (fun c => f c = true) g /\
  match r with [] => True | c :: _ => f c = false end.
Proof.
  revert g r. induction s as [|c s IH]; intros g r; simpl.
  - intros [= <- <-]. repeat split; constructor.
  - destruct (f c) eqn:Hc.
    + destruct (Re.span f s) as [g' r'] eqn:Hs.
      intros [= <- <-].
      destruct (IH _ _ eq_refl) as (-> & Hall & Hr).
      repeat split; [constructor|]; assumption.
    + intros [= <- <-]. repeat split; [constructor|assumption].
Qed.

(** A maximal run of a class at the head of a string is determined. *)
Lemma run_unique (f : char -> bool) g g' r r' :
  g ++ r = g' ++ r' ->
  Forall (fun c => f c = true) g ->
  Forall (fun c => f c = true) g' ->
  match r with [] => True | c :: _ => f c = false end ->
  match r' with [] => True | c :: _ => f c = false end ->
  g = g'.
Proof.
  revert g'. induction g as [|c g IH]; intros g' E Hg Hg' Hr Hr'.
  - destruct g' as [|c' g']; [reflexivity|].
    simpl in E. subst r. inversion Hg'; subst. congruence.
  - destruct g' as [|c' g'].
    + simpl in E. subst r'. inversion Hg; subst. congruence.
    + simpl in E. injection E as -> E.
      inversion Hg; inversion Hg'; subst.
      f_equal. now apply IH.
Qed.

Lemma match_at_Some p s id :
  Re.match_at p s = Some id <-> captures_at p s [] id.
Proof.
  unfold Re.match_at, captures_at. split.
  - destruct (Re.starts_with (Re.literal p) s) as [rest|] eqn:Hl;
      [|discriminate].
    apply starts_with_spec in Hl.
    destruct (Re.span (Re.klass p) rest) as [g r] eqn:Hs.
    apply span_spec in Hs. destruct Hs as (-> & Hall & Hr).
    destruct g as [|c g]; [discriminate|]. intros [= <-].
    exists r. split; [now subst|]. split; [discriminate|]. now split.
  - intros (post & E & Hne & Hall & Hpost). simpl in E.
    apply starts_with_spec in E. rewrite E.
    destruct (Re.span (Re.klass p) (id ++ post)) as [g r] eqn:Hs.
    apply span_spec in Hs. destruct Hs as (E' & Hall' & Hr).
    assert (id = g) as <- by (eapply run_unique; eauto).
    destruct id; congruence.
Qed.

Lemma match_at_None p s :
  Re.match_at p s = None <-> forall id, ~ captures_at p s [] id.
Proof.
  split.
  - intros Hn id Hc. apply match_at_Some in Hc. congruence.
  - intros Hn. destruct (Re.match_at p s) as [id|] eqn:Hm; [|reflexivity].
    apply match_at_Some in Hm. now apply Hn in Hm.
Qed.

Lemma captures_at_cons p c s pre id :
  captures_at p (c :: s) (c :: pre) id <-> captures_at p s pre id.
Proof.
  unfold captures_at. split; intros (post & E & H); exists post;
    (split; [|exact H]); simpl in *; congruence.
Qed.

Lemma captures_at_head p c s c' pre id :
  captures_at p (c :: s) (c' :: pre) id -> c' = c.
Proof. intros (post & E & _). simpl in E. congruence. Qed.

Lemma captures_at_nil p pre id : captures_at p [] pre id -> pre = [].
Proof.
  intros (post & E & _). destruct pre; [reflexivity|discriminate].
Qed.

Lemma captures_at_unique p u pre id id' :
  captures_at p u pre id -> captures_at p u pre id' -> id = id'.
Proof.
  intros (post & E & _ & Hall & Hpost) (post' & E' & _ & Hall' & Hpost').
  rewrite E in E'. apply app_inv_head in E'. apply app_inv_head in E'.
  eapply run_unique; eauto.
Qed.

Lemma search_Some p s id : Re.search p s = Some id -> captures p s id.
Proof.
  induction s as [|c s IH]; simpl.
  - destruct (Re.match_at p []) as [g|] eqn:Hm; [|discriminate].
    intros [= ->]. apply match_at_Some in Hm.
    exists []. split; [assumption|]. intros; simpl; lia.
  - destruct (Re.match_at p (c :: s)) as [g|] eqn:Hm.
    + intros [= ->]. apply match_at_Some in Hm.
      exists []. split; [assumption|]. intros; simpl; lia.
    + intros Hs. destruct (IH Hs) as (pre & Hat & Hleft).
      exists (c :: pre). split; [now apply captures_at_cons|].
      intros pre' id' Hc'. destruct pre' as [|c' pre'].
      * exfalso. eapply match_at_None in Hm. now apply Hm in Hc'.
      * pose proof (captures_at_head _ _ _ _ _ _ Hc') as ->.
        apply captures_at_cons in Hc'. apply Hleft in Hc'. simpl. lia.
Qed.

Lemma search_None p s : Re.search p s = None -> no_match p s.
Proof.
  unfold no_match. induction s as [|c s IH]; simpl.
  - destruct (Re.match_at p []) eqn:Hm; [discriminate|]. intros _ pre id Hc.
    pose proof (captures_at_nil _ _ _ Hc) as ->.
    eapply match_at_None in Hm. now apply Hm in Hc.
  - destruct (Re.match_at p (c :: s)) eqn:Hm; [discriminate|].
    intros Hs pre id Hc. destruct pre as [|c' pre].
    + eapply match_at_None in Hm. now apply Hm in Hc.
    + pose proof (captures_at_head _ _ _ _ _ _ Hc) as ->.
      apply captures_at_cons in Hc. now apply (IH Hs) in Hc.
Qed.

(** The leftmost match captures one identifier only. *)
Lemma captures_unique p u id id' :
  captures p u id -> captures p u id' -> id = id'.
Proof.
  intros (pre & Hat & Hleft) (pre' & Hat' & Hleft').
  pose proof (Hleft _ _ Hat'). pose proof (Hleft' _ _ Hat).
  assert (pre = pre') as <-.
  { destruct Hat as (post & E & _), Hat' as (post' & E' & _).
    rewrite E in E'. apply app_eq_app in E'.
    destruct E' as [l [[E1 E2]|[E1 E2]]];
      pose proof (f_equal (@List.length N) E1) as EL;
      rewrite length_app in EL;
      destruct l; simpl in EL; try lia;
      rewrite app_nil_r in E1; congruence. }
  eapply captures_at_unique; eauto.
Qed.

Lemma captures_not_no_match p u id : captures p u id -> ~ no_match p u.
Proof. intros (pre & Hat & _) Hn. exact (Hn _ _ Hat). Qed.

(** ** C1: identifier extraction *)

(** C1.  For every input string [s], [extract_playlist_id] works on [s]
    cut before its first ['?'] or ['#'].  It returns [id] exactly when
    [id] is the alphanumeric run captured by the leftmost match of
    [playlist/<ID>], or that pattern matches nowhere and [id] is the run
    captured by the leftmost match of [playlist:<ID>]; it raises
    [ValueError] exactly when neither pattern matches. *)
Theorem extract_playlist_id_spec (s : pystr) :
  let u := strip_query_fragment s in
  without_query_fragment s u /\
  (forall id,
      extract_playlist_id s = Ok id <->
      captures url_pattern u id \/
      (no_match url_pattern u /\ captures uri_pattern u id)) /\
  ((exists msg, extract_playlist_id s = Raise (ValueError msg)) <->
   no_match url_pattern u /\ no_match uri_pattern u) /\
  (forall id, extract_playlist_id s = Ok id ->
              id <> [] /\ Forall (fun c => ascii_alnum c = true) id).
Proof.
  intros u. split; [apply strip_query_fragment_spec|].
  unfold extract_playlist_id. fold u.
  unfold patterns, first_match.
  fold url_pattern. fold uri_pattern.
  destruct (Re.search url_pattern u) as [g|] eqn:H1.
  - pose proof (search_Some _ _ _ H1) as C1.
    split; [|split].
    + intros id. split.
      * intros [= <-]. now left.
      * intros [C|[N _]].
        -- f_equal. eapply captures_unique; eauto.
        -- exfalso. eapply captures_not_no_match; eauto.
    + split.
      * intros [msg [=]].
      * intros [N _]. exfalso. eapply captures_not_no_match; eauto.
    + intros id [= <-]. destruct C1 as (pre & (post & _ & Hne & Hall & _) & _).
      split; assumption.
  - pose proof (search_None _ _ H1) as N1.
    destruct (Re.search uri_pattern u) as [g|] eqn:H2.
    + pose proof (search_Some _ _ _ H2) as C2.
      split; [|split].
      * intros id. split.
        -- intros [= <-]. right. now split.
        -- intros [C|[_ C]].
           ++ exfalso. eapply captures_not_no_match; eauto.
           ++ f_equal. eapply captures_unique; eauto.
      * split.
        -- intros [msg [=]].
        -- intros [_ N]. exfalso. eapply captures_not_no_match; eauto.
      * intros id [= <-].
        destruct C2 as (pre & (post & _ & Hne & Hall & _) & _).
        split; assumption.
    + pose proof (search_None _ _ H2) as N2.
      split; [|split].
      * intros id. split; [discriminate|].
        intros [C|[_ C]]; exfalso; eapply captures_not_no_match; eauto.
      * split; [intros _; now split|]. intros _. eexists. reflexivity.
      * intros id [=].
Qed.

Example extract_url_form :
  extract_playlist_id
    (str "https://open.spotify.com/playlist/37i9dQZF1DX0XUsuxWHRQd?si=1#x")
  = Ok (str "37i9dQZF1DX0XUsuxWHRQd").
Proof. vm_compute. reflexivity. Qed.

Example extract_uri_form :
  extract_playlist_id (str "spotify:playlist:37i9dQZF1DX0XUsuxWHRQd")
  = Ok (str "37i9dQZF1DX0XUsuxWHRQd").
Proof. vm_compute. reflexivity. Qed.

(** The path form is tried first, wherever the two occur. *)
Example extract_prefers_url_form :
  extract_playlist_id (str "spotify:playlist:AAA/playlist/BBB")
  = Ok (str "BBB").
Proof. vm_compute. reflexivity. Qed.

Example extract_neither :
  extract_playlist_id (str "https://open.spotify.com/album/37i9dQ?x=playlist/1")
  = Raise (ValueError
             (str "Could not extract playlist ID from URL: https://open.spotify.com/album/37i9dQ")).
Proof. vm_compute. reflexivity. Qed.

(** ** C2: dropped records and row numbering (playlist variant) *)

Lemma append_items_acc tracks its :
  append_items tracks its = tracks ++ append_items [] its.
Proof.
  revert tracks. induction its as [|item its IH]; intros tracks; simpl.
  - now rewrite app_nil_r.
  - destruct (song_entry item) as [e|].
    + rewrite (IH (tracks ++ [e])), (IH [e]). now rewrite <- app_assoc.
    + apply IH.
Qed.

Lemma append_items_app tracks its1 its2 :
  append_items tracks (its1 ++ its2)
  = append_items (append_items tracks its1) its2.
Proof.
  revert tracks. induction its1 as [|item its1 IH]; intros tracks; simpl.
  - reflexivity.
  - destruct (song_entry item); apply IH.
Qed.

Lemma dropped_song_entry item :
  dropped item = true <-> song_entry item = None.
Proof.
  unfold dropped, song_entry. destruct (track item) as [t|]; [|tauto].
  destruct (name t) as [[|c n]|]; simpl; split; congruence.
Qed.

Lemma kept_song_entry item :
  kept item = true -> exists e, song_entry item = Some e.
Proof.
  unfold kept. destruct (dropped item) eqn:Hd; [discriminate|]. intros _.
  destruct (song_entry item) as [e|] eqn:He; [eauto|].
  apply dropped_song_entry in He. congruence.
Qed.

(** The entries are those of the kept items, in the items' order. *)
Lemma append_items_kept its :
  List.map Some (append_items [] its)
  = List.map song_entry (List.filter kept its).
Proof.
  induction its as [|item its IH]; simpl; [reflexivity|].
  unfold kept at 1. destruct (dropped item) eqn:Hd; simpl.
  - apply dropped_song_entry in Hd. now rewrite Hd.
  - destruct (song_entry item) as [e|] eqn:He.
    + rewrite append_items_acc. simpl. now rewrite IH.
    + apply dropped_song_entry in He. congruence.
Qed.

Lemma filter_kept_dropped_length its :
  List.length (List.filter kept its) + List.length (List.filter dropped its)
  = List.length its.
Proof.
  induction its as [|item its IH]; simpl; [reflexivity|].
  unfold kept at 1. destruct (dropped item); simpl; lia.
Qed.

Lemma append_rows_acc rows i tracks :
  append_rows rows i tracks = rows ++ numbered i tracks.
Proof.
  revert rows i. induction tracks as [|t tracks IH]; intros rows i; simpl.
  - now rewrite app_nil_r.
  - rewrite IH. now rewrite <- app_assoc.
Qed.

Lemma numbered_length i tracks :
  List.length (numbered i tracks) = List.length tracks.
Proof.
  revert i. induction tracks as [|t tracks IH]; intros i; simpl; auto.
Qed.

Lemma numbered_index_column i tracks :
  index_column (numbered (Z.of_nat i) tracks)
  = List.map (fun k => Some (CInt (Z.of_nat k)))
             (List.seq i (List.length tracks)).
Proof.
  revert i. induction tracks as [|t tracks IH]; intros i; simpl;
    [reflexivity|].
  f_equal. replace (Z.of_nat i + 1)%Z with (Z.of_nat (S i)) by lia.
  apply IH.
Qed.

Lemma numbered_nth i tracks k t :
  List.nth_error tracks k = Some t ->
  List.nth_error (numbered i tracks) k
  = Some [CInt (i + Z.of_nat k); CStr (song t); CStr (spotify_url t)].
Proof.
  revert i k. induction tracks as [|t' tracks IH]; intros i k.
  - destruct k; discriminate.
  - destruct k as [|k]; simpl.
    + intros [= ->]. now rewrite Z.add_0_r.
    + intros Hk. rewrite (IH _ _ Hk). do 3 f_equal. lia.
Qed.

(** C2.  For every list of raw record items of the playlist variant: an
    item whose track is null or whose title is null or empty yields no
    entry; the entries are those of the remaining items, in retrieval
    order, so their number is the raw count minus the number of dropped
    records; and the rows written are the header followed by one row per
    entry whose index column is exactly 1..N. *)
Theorem playlist_rows_spec (its : list PlaylistItem) :
  let tracks := append_items [] its in
  let rows := append_rows [header] 1 tracks in
  List.map Some tracks = List.map song_entry (List.filter kept its) /\
  List.length tracks
  = List.length its - List.length (List.filter dropped its) /\
  rows = header :: numbered 1 tracks /\
  List.length (numbered 1 tracks) = List.length tracks /\
  index_column (numbered 1 tracks) = one_to (List.length tracks) /\
  (forall k t,
      List.nth_error tracks k = Some t ->
      List.nth_error (numbered 1 tracks) k
      = Some [CInt (Z.of_nat (k + 1)); CStr (song t); CStr (spotify_url t)]).
Proof.
  intros tracks rows.
  assert (Hk : List.map Some tracks
               = List.map song_entry (List.filter kept its))
    by apply append_items_kept.
  split; [exact Hk|]. split.
  - apply (f_equal (@List.length _)) in Hk.
    rewrite !length_map in Hk. rewrite Hk.
    pose proof (filter_kept_dropped_length its). lia.
  - split; [apply append_rows_acc|].
    split; [apply numbered_length|].
    split; [apply (numbered_index_column 1)|].
    intros k t Hk'. rewrite (numbered_nth _ _ _ _ Hk').
    do 3 f_equal. lia.
Qed.

(** Four mock records: the second has a null track, the third an empty
    title; two rows come out, numbered 1 and 2. *)
Example playlist_rows_example :
  let t (n : pystr) :=
    mkTrack (Some n) [mkArtist (str "A"); mkArtist (str "B")]
            (mkExternalUrls (str "u:" ++ n)) in
  append_rows [header] 1
    (append_items []
       [ mkPlaylistItem (Some (t (str "one")));
         mkPlaylistItem None;
         mkPlaylistItem (Some (t []));
         mkPlaylistItem (Some (t (str "two"))) ])
  = [ header;
      [CInt 1; CStr (str "one - A, B"); CStr (str "u:one")];
      [CInt 2; CStr (str "two - A, B"); CStr (str "u:two")] ].
Proof. vm_compute. reflexivity. Qed.

(** ** C3: paginated retrieval *)

(** The loop as the script writes it: one [sp.next] call per round. *)
Lemma page_loop_step results tracks sp :
  page_loop (later_pages sp) results tracks sp
  = let tracks' := append_items tracks (items results) in
    if truthy (next results) then
      match sp_next results sp with
      | (Ok p, sp') => page_loop (later_pages sp') p tracks' sp'
      | (Raise e, sp') => (Raise e, sp')
      end
    else (Ok tracks', sp).
Proof.
  unfold sp_next. simpl.
  destruct (later_pages sp) as [|p ps] eqn:Hl; simpl; rewrite ?Hl;
    destruct (truthy (next results)); reflexivity.
Qed.

Lemma well_linked_cons p q chain :
  well_linked (p :: q :: chain)
  <-> truthy (next p) = true /\ well_linked (q :: chain).
Proof. reflexivity. Qed.

Lemma page_loop_chain chain :
  forall rest first later tracks sp,
    first :: later = chain ++ rest ->
    well_linked chain ->
    later_pages sp = later ->
    exists sp',
      page_loop later first tracks sp
      = (Ok (tracks ++ List.flat_map page_entries chain), sp') /\
      later_pages sp' = rest /\
      requests sp' = requests sp ++ next_requests chain /\
      playlist_name sp' = playlist_name sp.
Proof.
  induction chain as [|p chain IH]; intros rest first later tracks sp E W L;
    [destruct W|].
  simpl in E. injection E as -> E.
  destruct chain as [|q chain].
  - simpl in W, E. subst later.
    exists sp. unfold next_requests. simpl.
    destruct rest; simpl; rewrite W, append_items_acc, !app_nil_r;
      repeat split; auto.
  - apply well_linked_cons in W. destruct W as [Hn W].
    simpl in E. subst later. cbn [page_loop]. rewrite Hn.
    edestruct (IH rest q (chain ++ rest)
                  (append_items tracks (items p))
                  (with_later (chain ++ rest) (issue (GetNext (next p)) sp)))
      as (sp' & Hrun & Hl & Hr & Hp); [reflexivity|exact W|reflexivity|].
    exists sp'. rewrite Hrun. split; [|split; [exact Hl|split]].
    + f_equal. f_equal. rewrite append_items_acc.
      change (List.flat_map page_entries (p :: q :: chain))
        with (page_entries p ++ List.flat_map page_entries (q :: chain)).
      unfold page_entries at 2. now rewrite app_assoc.
    + rewrite Hr. simpl. unfold next_requests.
      change (List.removelast (p :: q :: chain))
        with (p :: List.removelast (q :: chain)).
      simpl. now rewrite <- app_assoc.
    + rewrite Hp. reflexivity.
Qed.

(** A page that announces a successor the service cannot deliver: the
    transport error propagates. *)
Lemma page_loop_exhausted first tracks sp :
  truthy (next first) = true ->
  fst (page_loop [] first tracks sp) = Raise (APIError (str "http status: 404")).
Proof. intros Hn. simpl. now rewrite Hn. Qed.

Lemma flat_map_page_entries chain :
  List.flat_map page_entries chain
  = append_items [] (List.flat_map items chain).
Proof.
  induction chain as [|p chain IH]; simpl; [reflexivity|].
  rewrite append_items_app, (append_items_acc (append_items [] (items p))).
  now rewrite IH.
Qed.

Lemma song_entry_is_entry item e :
  song_entry item = Some e -> kept item = true /\ is_entry_of item e.
Proof.
  unfold song_entry, kept, dropped, is_entry_of.
  destruct (track item) as [t|]; [|discriminate].
  destruct (name t) as [[|c title]|] eqn:Hn; try discriminate.
  intros [= <-]. split; [reflexivity|].
  exists t, (c :: title). cbn [song spotify_url].
  split; [reflexivity|]. split; [exact Hn|]. split; [discriminate|].
  split; reflexivity.
Qed.

(** The entries are those of the kept records, one for one and in
    order, described by the records alone. *)
Lemma append_items_entries its :
  Forall2 is_entry_of (List.filter kept its) (append_items [] its).
Proof.
  induction its as [|item its IH]; cbn [List.filter append_items];
    [constructor|].
  destruct (song_entry item) as [e|] eqn:He.
  - destruct (song_entry_is_entry _ _ He) as [Hk He'].
    rewrite Hk, append_items_acc. cbn [app]. now constructor.
  - apply dropped_song_entry in He. unfold kept. now rewrite He.
Qed.

Lemma filter_kept_all its :
  Forall (fun item => kept item = true) its -> List.filter kept its = its.
Proof.
  induction 1 as [|item its Hk _ IH]; simpl; [reflexivity|].
  now rewrite Hk, IH.
Qed.

Lemma page_entries_parts chain :
  List.flat_map page_entries chain
  = List.concat (List.map page_entries chain) /\
  Forall2 (fun p part => Forall2 is_entry_of (List.filter kept (items p)) part)
          chain (List.map page_entries chain).
Proof.
  split; [apply List.flat_map_concat_map|].
  induction chain as [|p chain IH]; simpl; constructor; auto.
  apply append_items_entries.
Qed.

(** C3.  For every sequence of pages the service answers with, of which
    [chain] is the linked part (next-page indicator set on every page
    but its last) and [rest] whatever would follow: retrieval issues one
    [next] request for each page whose indicator is set and none after
    the page whose indicator is unset ([rest] stays with the service),
    and returns the concatenation of the pages of [chain], page after
    page, each page in its own order: the returned list holds, one for
    one and in that order, the entry (["title - artists"] and link) of
    every record of those pages that has a track with a title, and of
    every record when none is dropped. *)
Theorem get_playlist_data_pages
        (playlist_url playlist_id : pystr) (sp : Spotify)
        (chain rest : list Page) :
  extract_playlist_id playlist_url = Ok playlist_id ->
  first_page sp :: later_pages sp = chain ++ rest ->
  well_linked chain ->
  exists sp' tracks,
    get_playlist_data playlist_url sp
    = (Ok (playlist_name sp, tracks), sp') /\
    Forall2 is_entry_of
            (List.filter kept (List.flat_map items chain)) tracks /\
    (Forall (fun item => kept item = true) (List.flat_map items chain) ->
     Forall2 is_entry_of (List.flat_map items chain) tracks /\
     List.length tracks = List.length (List.flat_map items chain)) /\
    (exists parts,
        tracks = List.concat parts /\
        Forall2 (fun p part =>
                   Forall2 is_entry_of (List.filter kept (items p)) part)
                chain parts) /\
    tracks = List.flat_map page_entries chain /\
    List.flat_map page_entries chain
    = append_items [] (List.flat_map items chain) /\
    requests sp'
    = requests sp
      ++ [GetPlaylist playlist_id; GetPlaylistTracks playlist_id]
      ++ next_requests chain /\
    List.length (next_requests chain) = List.length chain - 1 /\
    later_pages sp' = rest.
Proof.
  intros Hid E W. unfold get_playlist_data. rewrite Hid.
  cbn [sp_playlist sp_playlist_tracks].
  edestruct (page_loop_chain chain rest (first_page sp) (later_pages sp) []
               (issue (GetPlaylistTracks playlist_id)
                      (issue (GetPlaylist playlist_id) sp)))
    as (sp' & Hrun & Hl & Hr & Hp); [exact E|exact W|reflexivity|].
  cbn [later_pages issue first_page] in *.
  rewrite Hrun. exists sp', (List.flat_map page_entries chain).
  split; [reflexivity|].
  assert (Hall : Forall2 is_entry_of
                         (List.filter kept (List.flat_map items chain))
                         (List.flat_map page_entries chain)).
  { rewrite flat_map_page_entries. apply append_items_entries. }
  split; [exact Hall|]. split.
  { intros Hkept. rewrite (filter_kept_all _ Hkept) in Hall.
    split; [exact Hall|]. symmetry. eapply Forall2_length. exact Hall. }
  split.
  { exists (List.map page_entries chain). apply page_entries_parts. }
  split; [reflexivity|].
  split; [apply flat_map_page_entries|].
  split; [rewrite Hr; simpl; now rewrite <- !app_assoc|].
  split; [|exact Hl].
  unfold next_requests. rewrite length_map.
  clear. induction chain as [|p [|q chain] IH]; simpl in *; auto; lia.
Qed.

(** Two mock pages, the first with [next] set and the second without:
    the usable record of page one, then the usable record of page two,
    after exactly one [next] request. *)
Lemma get_playlist_data_pages_witness :
  exists sp',
    get_playlist_data mock_url mock_sp
    = (Ok (str "My/Playlist: Summer '24!",
           [ mkSongEntry (str "one - A, B")
                         (str "https://open.spotify.com/track/one");
             mkSongEntry (str "two - A, B")
                         (str "https://open.spotify.com/track/two") ]),
       sp') /\
    requests sp'
    = [ GetPlaylist (str "37i9dQZF1DX0XUsuxWHRQd");
        GetPlaylistTracks (str "37i9dQZF1DX0XUsuxWHRQd");
        GetNext (next mock_page1) ] /\
    later_pages sp' = [].
Proof.
  destruct (get_playlist_data_pages mock_url (str "37i9dQZF1DX0XUsuxWHRQd")
              mock_sp [mock_page1; mock_page2] [])
    as (sp' & tracks & Hrun & _ & _ & _ & Htracks & _ & Hreq & _ & Hl).
  - vm_compute. reflexivity.
  - reflexivity.
  - simpl. split; reflexivity.
  - exists sp'. rewrite Hrun, Htracks.
    split; [reflexivity|]. split; [exact Hreq|exact Hl].
Defined.

(** Two pages in general: page one's entries, then page two's. *)
Corollary two_pages_concatenate p1 p2 tracks sp :
  truthy (next p1) = true ->
  truthy (next p2) = false ->
  later_pages sp = [p2] ->
  fst (page_loop [p2] p1 tracks sp)
  = Ok (tracks ++ page_entries p1 ++ page_entries p2).
Proof.
  intros H1 H2 L.
  destruct (page_loop_chain [p1; p2] [] p1 [p2] tracks sp)
    as (sp' & Hrun & _); [reflexivity|simpl; auto|exact L|].
  rewrite Hrun. simpl. now rewrite app_nil_r.
Qed.

(** ** C4: bounded single-request retrieval (liked-tracks variant) *)

Section Liked.
Context `{Python}.

Lemma parse_saved_acc parsed its :
  parse_saved parsed its
  = match parse_saved [] its with
    | Ok l => Ok (parsed ++ l)
    | Raise e => Raise e
    end.
Proof.
  revert parsed. induction its as [|item its IH]; intros parsed; simpl.
  - now rewrite app_nil_r.
  - destruct (fromisoformat _); [|reflexivity].
    rewrite (IH (parsed ++ _)), (IH [_]).
    destruct (parse_saved [] its); [|reflexivity].
    now rewrite <- app_assoc.
Qed.

(** A successful pass normalizes every record, position by position. *)
Lemma parse_saved_Ok its parsed :
  parse_saved [] its = Ok parsed ->
  List.map Some parsed = List.map normalize its.
Proof.
  revert parsed. induction its as [|item its IH]; intros parsed; simpl.
  - now intros [= <-].
  - unfold normalize at 1.
    destruct (fromisoformat _) as [added|]; [|discriminate].
    rewrite parse_saved_acc.
    destruct (parse_saved [] its) as [l|]; [|discriminate].
    intros [= <-]. simpl. f_equal. now apply IH.
Qed.

(** The pass succeeds when every timestamp parses. *)
Lemma parse_saved_total its :
  Forall (fun item => is_Some (normalize item)) its ->
  exists parsed, parse_saved [] its = Ok parsed.
Proof.
  induction 1 as [|item its [l Hl] _ [parsed IH]]; simpl; [eauto|].
  unfold normalize in Hl.
  destruct (fromisoformat _) as [added|]; [|discriminate].
  rewrite parse_saved_acc, IH. eauto.
Qed.

Lemma slice_to_nonneg {A} (l : list A) (n : Z) :
  (0 <= n)%Z -> slice_to l n = List.firstn (Z.to_nat n) l.
Proof.
  intros Hn. unfold slice_to.
  destruct (Z.ltb_spec n 0); [lia|reflexivity].
Qed.

(** C4, as the code has it.  For every requested limit [limit >= 0] and
    every response of the service: retrieval issues exactly one request
    (a saved-tracks request for [limit] records) and changes nothing
    else; it succeeds when the timestamps of the retained records parse;
    and its result is the normalization, position by position, of the
    first [limit] records of the response (all of them when there are
    fewer), so it has [min limit (number returned)] entries, in the
    order of the response; 25 records and limit 20 give 20 entries. *)
Theorem fetch_recent_liked_spec (limit : Z) (w : World) :
  (0 <= limit)%Z ->
  let response := saved_tracks (w_sp w) limit in
  let retained := List.firstn (Z.to_nat limit) response in
  snd (fetch_recent_liked limit w)
  = set_sp (issue (GetSavedTracks limit) (w_sp w)) w /\
  requests (w_sp (snd (fetch_recent_liked limit w)))
  = requests (w_sp w) ++ [GetSavedTracks limit] /\
  (Forall (fun item => is_Some (normalize item)) retained ->
   exists parsed, fst (fetch_recent_liked limit w) = Ok parsed) /\
  (forall parsed,
      fst (fetch_recent_liked limit w) = Ok parsed ->
      List.map Some parsed = List.map normalize retained /\
      List.length parsed
      = Nat.min (Z.to_nat limit) (List.length response) /\
      (limit = 20%Z -> List.length response = 25 ->
       List.length parsed = 20)).
Proof.
  intros Hl response retained.
  unfold fetch_recent_liked, bind, with_sp, sp_current_user_saved_tracks.
  cbn [fst snd]. rewrite slice_to_nonneg by exact Hl.
  fold response. fold retained.
  split; [reflexivity|]. split; [reflexivity|]. split.
  - intros Hall. now apply parse_saved_total.
  - intros parsed Hp. apply parse_saved_Ok in Hp.
    assert (Hlen : List.length parsed
                   = Nat.min (Z.to_nat limit) (List.length response)).
    { apply (f_equal (@List.length _)) in Hp.
      rewrite !length_map in Hp. rewrite Hp.
      unfold retained. apply length_firstn. }
    split; [exact Hp|]. split; [exact Hlen|].
    intros -> H25. rewrite Hlen, H25. reflexivity.
Qed.

End Liked.

(** A mock response of 25 records and limit 20: one request, 20 entries,
    the first 20 of the response in its order. *)
Lemma fetch_recent_liked_witness :
  let w := mock_world [str "recent_likes.py"] mock_sp in
  exists parsed,
    fst (@fetch_recent_liked example_python 20 w) = Ok parsed /\
    List.length parsed = 20 /\
    List.map Some parsed
    = List.map (@normalize example_python)
               (List.firstn 20 (List.map mock_saved (List.seq 0 25))) /\
    requests (w_sp (snd (@fetch_recent_liked example_python 20 w)))
    = [GetSavedTracks 20].
Proof.
  intros w.
  destruct (@fetch_recent_liked_spec example_python 20 w ltac:(lia))
    as (_ & Hreq & Htotal & Hok).
  destruct Htotal as [parsed Hp].
  { repeat (constructor; [eexists; vm_compute; reflexivity|]).
    constructor. }
  exists parsed. destruct (Hok parsed Hp) as (Hmap & _ & H20).
  split; [exact Hp|]. split; [now apply H20|]. split; [exact Hmap|].
  exact Hreq.
Defined.

(** With a negative limit the slice [[:limit]] drops records from the
    end instead: limit -1 on 25 records leaves 24, more than the limit. *)
Lemma fetch_recent_liked_negative_limit :
  exists parsed,
    fst (@fetch_recent_liked example_python (-1)
           (mock_world [str "recent_likes.py"; str "-1"] mock_sp))
    = Ok parsed /\
    List.length parsed = 24 /\
    (Z.of_nat (List.length parsed) > -1)%Z.
Proof.
  eexists. split; [vm_compute; reflexivity|].
  split; [reflexivity|reflexivity].
Qed.

(** ** C9: console lines (liked-tracks variant) *)

Lemma infixb_spec sub s : infixb sub s = true <-> infix_of sub s.
Proof.
  unfold infix_of. induction s as [|c s IH]; simpl.
  - destruct (Re.starts_with sub []) as [r|] eqn:Hs.
    + apply starts_with_spec in Hs. split; [|reflexivity].
      intros _. exists [], r. exact Hs.
    + split; [discriminate|]. intros (pre & post & E).
      destruct pre; [|discriminate]. simpl in E.
      apply starts_with_spec in E. congruence.
  - destruct (Re.starts_with sub (c :: s)) as [r|] eqn:Hs.
    + apply starts_with_spec in Hs. split; [|reflexivity].
      intros _. exists [], r. exact Hs.
    + rewrite IH. split.
      * intros (pre & post & ->). now exists (c :: pre), post.
      * intros (pre & post & E). destruct pre as [|c' pre].
        -- simpl in E. apply starts_with_spec in E. congruence.
        -- injection E as -> ->. now exists pre, post.
Qed.

Lemma infix_of_middle pre sub post : infix_of sub (pre ++ sub ++ post).
Proof. now exists pre, post. Qed.

Lemma strftime_ymd_hm d : strftime (str "%Y-%m-%d %H:%M") d = ymd_hm d.
Proof. unfold ymd_hm. simpl. now rewrite app_nil_r. Qed.

Lemma bounded_forallb (P : nat -> bool) n :
  forallb P (List.seq 0 n) = true -> forall k, k < n -> P k = true.
Proof.
  intros Hall k Hk. rewrite forallb_forall in Hall.
  apply Hall. apply in_seq. lia.
Qed.

Lemma pad4_digits n : n < 100 * 100 -> all_digits 4 n = true.
Proof. apply bounded_forallb. vm_compute. reflexivity. Qed.

Lemma pad2_digits n : n < 100 -> all_digits 2 n = true.
Proof. apply bounded_forallb. vm_compute. reflexivity. Qed.

Lemma all_digits_4 n :
  all_digits 4 n = true ->
  exists a b c d,
    pad_left 48 4 (dec n) = [a; b; c; d] /\
    forallb is_digit [a; b; c; d] = true.
Proof.
  unfold all_digits. intros [Hl Hd]%andb_prop.
  apply Nat.eqb_eq in Hl.
  destruct (pad_left 48 4 (dec n)) as [|a [|b [|c [|d [|? ?]]]]];
    try discriminate.
  now exists a, b, c, d.
Qed.

Lemma all_digits_2 n :
  all_digits 2 n = true ->
  exists a b,
    pad_left 48 2 (dec n) = [a; b] /\ forallb is_digit [a; b] = true.
Proof.
  unfold all_digits. intros [Hl Hd]%andb_prop.
  apply Nat.eqb_eq in Hl.
  destruct (pad_left 48 2 (dec n)) as [|a [|b [|? ?]]]; try discriminate.
  now exists a, b.
Qed.

(** A valid [datetime] prints as [dddd-dd-dd dd:dd]. *)
Lemma ymd_hm_has_shape d :
  valid_datetime d = true -> ymd_hm_shape (ymd_hm d) = true.
Proof.
  unfold valid_datetime. rewrite !andb_true_iff.
  rewrite !Nat.leb_le, Nat.ltb_lt.
  intros ((((((((_ & Hy) & _) & Hm) & _) & Hd) & Hh) & Hmi) & _).
  destruct (all_digits_4 (year d)) as (y1 & y2 & y3 & y4 & Ey & Dy);
    [apply pad4_digits; lia|].
  destruct (all_digits_2 (month d)) as (m1 & m2 & Em & Dm);
    [apply pad2_digits; lia|].
  destruct (all_digits_2 (day d)) as (d1 & d2 & Ed & Dd);
    [apply pad2_digits; lia|].
  destruct (all_digits_2 (hour d)) as (h1 & h2 & Eh & Dh);
    [apply pad2_digits; lia|].
  destruct (all_digits_2 (minute d)) as (n1 & n2 & En & Dn);
    [apply pad2_digits; lia|].
  unfold ymd_hm. rewrite Ey, Em, Ed, Eh, En.
  cbn [forallb] in *. rewrite !andb_true_iff in *.
  cbn -[is_digit]. rewrite !andb_true_iff. tauto.
Qed.

Lemma set_out_set_out out1 out2 w :
  set_out out2 (set_out out1 w) = set_out out2 w.
Proof. reflexivity. Qed.

Lemma print_liked_lines recent :
  forall i w,
    print_liked i recent w
    = (Ok tt, set_out (w_out w ++ liked_lines i recent) w).
Proof.
  induction recent as [|t recent IH]; intros i w; simpl.
  - unfold ret. rewrite app_nil_r. now destruct w.
  - unfold bind, print at 1. rewrite IH. simpl.
    now rewrite <- app_assoc.
Qed.

Lemma liked_lines_nth recent :
  forall i k t,
    List.nth_error recent k = Some t ->
    List.nth_error (liked_lines i recent) k
    = Some (liked_line (i + Z.of_nat k) t).
Proof.
  induction recent as [|t' recent IH]; intros i k t.
  - destruct k; discriminate.
  - destruct k as [|k]; simpl.
    + intros [= ->]. now rewrite Z.add_0_r.
    + intros Hk. rewrite (IH _ _ _ Hk). do 2 f_equal. lia.
Qed.

Lemma liked_lines_length recent i :
  List.length (liked_lines i recent) = List.length recent.
Proof. revert i. induction recent; intros i; simpl; auto. Qed.

(** C9, as the code has it.  In the liked-tracks variant the loop prints
    one line per entry, in order; the line for the entry at position
    [k] (counted from 0) carries the index [k + 1] right-aligned in two
    columns, the title, the comma-joined artist string and the
    [added_at] timestamp written ["YYYY-MM-DD HH:MM"], laid out as
    [" i. title — artists (added YYYY-MM-DD HH:MM)"].  The external link
    is kept in the normalized record and is not part of the line. *)
Theorem liked_lines_spec (recent : list Liked) (w : World) :
  print_liked 1 recent w
  = (Ok tt, set_out (w_out w ++ liked_lines 1 recent) w) /\
  List.length (liked_lines 1 recent) = List.length recent /\
  (forall k t,
      List.nth_error recent k = Some t ->
      let i := Z.of_nat (k + 1) in
      let date_str := ymd_hm (liked_added_at t) in
      List.nth_error (liked_lines 1 recent) k = Some (liked_line i t) /\
      liked_line i t
      = pad_left 32 2 (dec_int i) ++ str ". " ++ fmt (title t)
          ++ [32%N; em_dash; 32%N] ++ liked_artists t
          ++ str " (added " ++ date_str ++ str ")" /\
      infix_of (dec_int i) (liked_line i t) /\
      infix_of (fmt (title t)) (liked_line i t) /\
      infix_of (liked_artists t) (liked_line i t) /\
      infix_of date_str (liked_line i t) /\
      (valid_datetime (liked_added_at t) = true ->
       ymd_hm_shape date_str = true)) /\
  (forall (P : Python) item t,
      normalize item = Some t ->
      title t = name (saved_track item) /\
      liked_artists t
      = join (str ", ") (List.map artist_name (artists (saved_track item))) /\
      liked_url t = spotify (external_urls (saved_track item))).
Proof.
  split; [apply print_liked_lines|].
  split; [apply liked_lines_length|]. split.
  - intros k t Hk i date_str.
    assert (Hline : liked_line i t
                    = pad_left 32 2 (dec_int i) ++ str ". " ++ fmt (title t)
                        ++ [32%N; em_dash; 32%N] ++ liked_artists t
                        ++ str " (added " ++ date_str ++ str ")").
    { unfold liked_line. now rewrite strftime_ymd_hm. }
    split.
    { rewrite (liked_lines_nth _ _ _ _ Hk). do 2 f_equal. lia. }
    split; [exact Hline|].
    rewrite Hline. unfold pad_left.
    repeat split.
    + rewrite <- app_assoc. apply infix_of_middle.
    + rewrite (app_assoc _ (str ". ")). apply infix_of_middle.
    + rewrite 3!app_assoc. apply infix_of_middle.
    + rewrite 5!app_assoc. apply infix_of_middle.
    + apply ymd_hm_has_shape.
  - intros P item t. unfold normalize.
    destruct (fromisoformat _); [|discriminate].
    intros [= <-]. simpl. auto.
Qed.

(** One liked record, limit 1: the line printed for it does not contain
    the record's external link. *)
Lemma liked_line_omits_link :
  let w := mock_world [str "recent_likes.py"; str "1"] mock_sp in
  let line :=
    str " 1. 0 " ++ [em_dash] ++ str " A, B (added 2024-01-02 03:04)" in
  w_out (snd (@likes_main example_python w))
  = [ [10%N] ++ str "Your 1 most-recent liked songs:" ++ [10%N];
      line;
      [] ] /\
  spotify (external_urls (saved_track (mock_saved 0)))
  = str "https://open.spotify.com/track/0" /\
  infixb (str "https://open.spotify.com/track/0") line = false.
Proof.
  split; [vm_compute; reflexivity|].
  split; vm_compute; reflexivity.
Qed.

(** ** C6: the destination name *)

Section SheetName.
Context `{Python}.

(** Substituting the empty string for the characters of a class removes
    them. *)
Lemma sub_empty_filter f s :
  Re.sub f [] s = List.filter (fun c => negb (f c)) s.
Proof.
  induction s as [|c s IH]; simpl; [reflexivity|].
  destruct (f c); simpl; now rewrite IH.
Qed.

Lemma not_word_space_hyphen_allowed c :
  negb (not_word_space_hyphen c) = allowed c.
Proof.
  unfold not_word_space_hyphen, allowed, is_word.
  rewrite negb_involutive. reflexivity.
Qed.

Lemma sub_keeps_allowed s :
  Re.sub not_word_space_hyphen [] s = List.filter allowed s.
Proof.
  rewrite sub_empty_filter. apply List.filter_ext.
  intros c. apply not_word_space_hyphen_allowed.
Qed.

Lemma lstrip_spec s :
  exists l,
    s = l ++ lstrip s /\
    Forall (fun c => isspace c = true) l /\
    match lstrip s with [] => True | c :: _ => isspace c = false end.
Proof.
  induction s as [|c s (l & E & Hl & Hh)]; simpl.
  - exists []. repeat split; constructor.
  - destruct (isspace c) eqn:Hc.
    + exists (c :: l). split; [simpl; congruence|].
      split; [now constructor|exact Hh].
    + exists []. repeat split; [constructor|exact Hc].
Qed.

Lemma rstrip_spec t :
  exists r,
    t = rstrip t ++ r /\
    Forall (fun c => isspace c = true) r /\
    match List.rev (rstrip t) with
    | [] => True
    | c :: _ => isspace c = false
    end.
Proof.
  unfold rstrip. destruct (lstrip_spec (List.rev t)) as (l & E & Hl & Hh).
  exists (List.rev l). split; [|split].
  - rewrite <- rev_app_distr, <- E. now rewrite rev_involutive.
  - now apply List.Forall_rev.
  - now rewrite rev_involutive.
Qed.

Lemma strip_spec s : trimmed s (strip s).
Proof.
  unfold trimmed, strip.
  destruct (lstrip_spec s) as (l & E & Hl & Hh).
  destruct (rstrip_spec (lstrip s)) as (r & E' & Hr & Hlast).
  exists l, r. split; [|split; [exact Hl|split; [exact Hr|split]]].
  - now rewrite <- E', <- E.
  - rewrite E' in Hh. destruct (rstrip (lstrip s)); [exact I|exact Hh].
  - exact Hlast.
Qed.

Lemma truncate100_firstn s : truncate100 s = List.firstn 100 s.
Proof.
  unfold truncate100. destruct (Nat.ltb_spec 100 (List.length s));
    [reflexivity|].
  symmetry. apply firstn_all2. assumption.
Qed.

(** C6, as the code has it.  The destination name is the playlist name
    with every character removed that is not alphanumeric, underscore,
    whitespace or hyphen, then trimmed of leading and trailing
    whitespace, then cut to its first 100 characters; its length is the
    smaller of 100 and the length of the cleaned, trimmed name.  The
    name ["My/Playlist: Summer '24!"] gives ["MyPlaylist Summer 24"], and
    a name of 150 letters gives exactly 100 characters. *)
Theorem sheet_name_of_spec (playlist_name : pystr) :
  let cleaned := List.filter allowed playlist_name in
  Re.sub not_word_space_hyphen [] playlist_name = cleaned /\
  trimmed cleaned (strip cleaned) /\
  sheet_name_of playlist_name = List.firstn 100 (strip cleaned) /\
  List.length (sheet_name_of playlist_name)
  = Nat.min 100 (List.length (strip cleaned)) /\
  sheet_name_of (str "My/Playlist: Summer '24!")
  = str "MyPlaylist Summer 24" /\
  List.length (sheet_name_of (List.repeat (chr "a") 150)) = 100.
Proof.
  intros cleaned.
  assert (Hs : sheet_name_of playlist_name = List.firstn 100 (strip cleaned)).
  { unfold sheet_name_of. rewrite truncate100_firstn.
    now rewrite sub_keeps_allowed. }
  split; [apply sub_keeps_allowed|].
  split; [apply strip_spec|].
  split; [exact Hs|].
  split; [rewrite Hs; apply length_firstn|].
  split; vm_compute; reflexivity.
Qed.

End SheetName.

(** A name of 150 characters none of which may be kept: nothing is left
    of it. *)
Lemma sheet_name_of_150_punctuation :
  List.length (List.repeat (chr "!") 150) = 150 /\
  @sheet_name_of example_python (List.repeat (chr "!") 150) = [] /\
  List.length (@sheet_name_of example_python (List.repeat (chr "!") 150)) = 0.
Proof. repeat split; vm_compute; reflexivity. Qed.

(** ** C8: replace on rerun *)

Lemma delete_existing_run title w :
  delete_existing title w
  = (Ok tt,
     set_out (w_out w ++ deletion_lines (worksheets (w_ss w)) title)
       (set_ss (mkSpreadsheet
                  (delete title (worksheets (w_ss w)))
                  (url (w_ss w))
                  (ops (w_ss w) ++ deletion_ops (worksheets (w_ss w)) title))
               w)).
Proof.
  unfold delete_existing, try_except, bind, ss_worksheet, deletion_lines,
    deletion_ops.
  destruct (worksheets (w_ss w) !! title) as [old|] eqn:Hl.
  - reflexivity.
  - cbn. rewrite delete_id by exact Hl. rewrite !app_nil_r.
    destruct w as [? ? ? ? ? ? [? ? ?] ?]. reflexivity.
Qed.

(** Delete, create, write: the three calls always go through, and leave
    the new worksheet in place of the old. *)
Lemma replace_worksheet_run {A} title rows cols values (k : M A) w :
  (delete_existing title ;;
   ws <- ss_add_worksheet title rows cols ;;
   ws_update ws values ;;
   k) w
  = k (replaced title rows cols values w).
Proof.
  unfold bind at 1. rewrite delete_existing_run.
  unfold bind at 1. unfold ss_add_worksheet at 1. cbn.
  rewrite lookup_delete_eq.
  unfold bind at 1. unfold ws_update at 1. cbn.
  rewrite lookup_insert_eq.
  rewrite insert_insert_eq, insert_delete_eq.
  unfold replaced, log_op, set_ss, set_out. cbn.
  now rewrite <- !app_assoc.
Qed.

Lemma create_sheets_worksheet_run `{Python} playlist_name tracks w :
  let title := sheet_name_of playlist_name in
  let w1 := replaced title (List.length tracks + 1) 3
                     (header :: numbered 1 tracks) w in
  create_sheets_worksheet playlist_name tracks w
  = (Ok tt,
     set_out (w_out w1
                ++ [ str "Created worksheet " ++ quoted title ++ str " with "
                       ++ dec (List.length tracks) ++ str " tracks.";
                     str "Spreadsheet URL: " ++ url (w_ss w) ])
             w1).
Proof.
  intros title w1. unfold create_sheets_worksheet. fold title.
  rewrite replace_worksheet_run. rewrite append_rows_acc.
  change ([header] ++ numbered 1 tracks) with (header :: numbered 1 tracks).
  fold w1. unfold bind, print, read. cbn.
  now rewrite <- app_assoc.
Qed.

Lemma xml_check_env_run env vars w :
  xml_check_env env vars w
  = match first_unset env vars with
    | None => (Ok tt, w)
    | Some var =>
        (Raise (RuntimeError (var ++ str " is not set in .env or environment")),
         w)
    end.
Proof.
  induction vars as [|var vars IH]; simpl; [reflexivity|].
  destruct (truthy (getenv env var)); [exact IH|reflexivity].
Qed.

#[local] Opaque str strftime dec collect_rows findall_desc FIELDS quoted.

Lemma xml_to_sheets_run w :
  first_unset (w_env w) xml_required_vars = None ->
  let rows := xml_rows (w_xml w) in
  let title := xml_sheet_name w in
  let w1 :=
    replaced title (List.length rows + 1) (List.length FIELDS)
             (xml_payload (w_xml w))
             (set_out (w_out w
                         ++ [ str "Loading XML from "
                                ++ get_default (w_env w)
                                               (str "REKORDBOX_XML_PATH")
                                ++ [8230%N];
                              str "Found " ++ dec (List.length rows)
                                ++ str " tracks." ])
                      w) in
  xml_to_sheets w
  = (Ok tt,
     set_out (w_out w1
                ++ [ str "Wrote " ++ dec (List.length rows) ++ str " rows to "
                       ++ quoted title ++ str ".";
                     str "Done! Your sheet is here:";
                     url (w_ss w) ])
             w1).
Proof.
  intros Henv rows title w1. subst rows title w1.
  unfold xml_to_sheets, xml_rows, xml_payload, xml_sheet_name.
  unfold bind at 1. unfold read at 1.
  unfold bind at 1. rewrite xml_check_env_run, Henv.
  unfold bind at 1. unfold print at 1.
  unfold bind at 1. unfold read at 1.
  unfold bind at 1. unfold print at 1.
  unfold bind at 1. unfold read at 1.
  cbn [w_xml w_now w_env w_out set_out].
  rewrite replace_worksheet_run.
  unfold bind, print, read, replaced.
  cbn [w_out w_ss w_env set_out set_ss url].
  rewrite <- !app_assoc. reflexivity.
Qed.

#[local] Transparent str strftime dec collect_rows findall_desc FIELDS quoted.

(** C8.  For every tabular-write run: the delete step never fails; when
    a worksheet with exactly the destination's name exists, it is
    deleted, and the deletion precedes the creation of the new
    worksheet; when none exists nothing happens and the run goes on.
    Either way the run ends with the new worksheet, holding the new
    rows, under that name.  The same holds for the file variant, whose
    destination is named after the date. *)
Theorem replace_on_rerun `{Python} (playlist_name : pystr)
        (tracks : list SongEntry) (w : World) :
  let title := sheet_name_of playlist_name in
  let sheets := worksheets (w_ss w) in
  let rows := header :: numbered 1 tracks in
  let w' := snd (create_sheets_worksheet playlist_name tracks w) in
  fst (delete_existing title w) = Ok tt /\
  worksheets (w_ss (snd (delete_existing title w))) = delete title sheets /\
  ops (w_ss (snd (delete_existing title w)))
  = ops (w_ss w) ++ deletion_ops sheets title /\
  (is_Some (sheets !! title) ->
   deletion_ops sheets title = [DelWorksheet title]) /\
  (sheets !! title = None -> delete_existing title w = (Ok tt, w)) /\
  fst (create_sheets_worksheet playlist_name tracks w) = Ok tt /\
  ops (w_ss w')
  = ops (w_ss w) ++ deletion_ops sheets title
      ++ [ AddWorksheet title (List.length tracks + 1) 3;
           UpdateCells title rows ] /\
  worksheets (w_ss w')
  = <[title := mkWorksheet (List.length tracks + 1) 3 rows]> sheets /\
  (first_unset (w_env w) xml_required_vars = None ->
   let date := xml_sheet_name w in
   let n := List.length (xml_rows (w_xml w)) in
   fst (xml_to_sheets w) = Ok tt /\
   ops (w_ss (snd (xml_to_sheets w)))
   = ops (w_ss w) ++ deletion_ops sheets date
       ++ [ AddWorksheet date (n + 1) (List.length FIELDS);
            UpdateCells date (xml_payload (w_xml w)) ] /\
   worksheets (w_ss (snd (xml_to_sheets w)))
   = <[date := mkWorksheet (n + 1) (List.length FIELDS)
                           (xml_payload (w_xml w))]> sheets).
Proof.
  intros title sheets rows w'.
  rewrite delete_existing_run. cbn [fst snd].
  split; [reflexivity|]. split; [reflexivity|]. split; [reflexivity|].
  split.
  { intros [old Hold]. unfold deletion_ops. now rewrite Hold. }
  split.
  { intros Hnone. unfold deletion_lines, deletion_ops.
    fold sheets. rewrite Hnone, !app_nil_r.
    rewrite delete_id by exact Hnone.
    destruct w as [? ? ? ? ? ? [? ? ?] ?]. reflexivity. }
  subst w'. rewrite create_sheets_worksheet_run. cbn [fst snd].
  split; [reflexivity|]. split; [reflexivity|]. split; [reflexivity|].
  intros Henv.
  rewrite (xml_to_sheets_run w Henv). cbn [fst snd].
  split; [reflexivity|]. split; reflexivity.
Qed.

(** ** C5: an empty row sequence *)

Lemma check_env_run vars w :
  check_env vars w
  = match first_unset (w_env w) vars with
    | None => (Ok tt, w)
    | Some var => (Raise (SystemExit (not_set_message var)), w)
    end.
Proof.
  unfold check_env, bind, read, sys_exit, raise, ret.
  destruct (first_unset (w_env w) vars); reflexivity.
Qed.

(** C5, as the code has it.  In the playlist variant, when retrieval
    yields no entry, the run prints ["No tracks found in the playlist."]
    and returns: the spreadsheet is left as it was, no worksheet is
    deleted, created or written.  The file variant has no such test:
    on a document without track elements it still puts the date-named
    worksheet in place, holding the header row only. *)
Theorem playlist_main_no_tracks `{Python} (w : World)
        (playlist_name : pystr) (sp' : Spotify) :
  first_unset (w_env w) required_vars = None ->
  strip (w_stdin w) <> [] ->
  get_playlist_data (strip (w_stdin w)) (w_sp w)
  = (Ok (playlist_name, []), sp') ->
  playlist_main w
  = (Ok tt,
     set_out (w_out w
                ++ [ str "Fetching playlist data from Spotify...";
                     str "No tracks found in the playlist." ])
             (set_sp sp' w)) /\
  w_ss (snd (playlist_main w)) = w_ss w /\
  ops (w_ss (snd (playlist_main w))) = ops (w_ss w) /\
  worksheets (w_ss (snd (playlist_main w))) = worksheets (w_ss w) /\
  (forall w0 : World,
      first_unset (w_env w0) xml_required_vars = None ->
      xml_rows (w_xml w0) = [] ->
      fst (xml_to_sheets w0) = Ok tt /\
      worksheets (w_ss (snd (xml_to_sheets w0))) !! xml_sheet_name w0
      = Some (mkWorksheet 1 (List.length FIELDS) [cells FIELDS])).
Proof.
  intros Henv Hurl Hdata.
  assert (Hrun : playlist_main w
                 = (Ok tt,
                    set_out (w_out w
                               ++ [ str "Fetching playlist data from Spotify...";
                                    str "No tracks found in the playlist." ])
                            (set_sp sp' w))).
  { unfold playlist_main.
    unfold bind at 1. rewrite check_env_run, Henv.
    unfold bind at 1. unfold read at 1.
    destruct (strip (w_stdin w)) as [|c u] eqn:Hu; [congruence|].
    unfold try_except.
    unfold bind at 1. unfold print at 1.
    unfold bind at 1. unfold with_sp_result at 1.
    cbn [w_sp set_out]. rewrite Hdata.
    unfold print. cbn [set_sp set_out w_out w_env w_argv w_stdin w_now
                         w_xml w_sp w_ss].
    now rewrite <- app_assoc. }
  rewrite Hrun. cbn [snd].
  split; [reflexivity|]. split; [reflexivity|]. split; [reflexivity|].
  split; [reflexivity|].
  intros w0 Henv0 Hrows.
  rewrite (xml_to_sheets_run w0 Henv0). cbn [fst snd].
  split; [reflexivity|].
  unfold replaced. cbn [w_ss set_out set_ss worksheets].
  rewrite lookup_insert_eq. unfold xml_payload. rewrite Hrows.
  reflexivity.
Qed.

(** A playlist whose only record has a null track: the run reports that
    no tracks were found and leaves the spreadsheet alone. *)
Lemma playlist_main_no_tracks_witness :
  let w := mock_world [] empty_sp in
  @playlist_main example_python w
  = (Ok tt,
     set_out [ str "Fetching playlist data from Spotify...";
               str "No tracks found in the playlist." ]
             (set_sp (snd (get_playlist_data mock_url empty_sp)) w)) /\
  worksheets (w_ss (snd (@playlist_main example_python w))) = ∅.
Proof.
  intros w.
  destruct (@playlist_main_no_tracks example_python w (str "Empty")
              (snd (get_playlist_data mock_url empty_sp)))
    as (Hrun & _ & _ & Hsheets & _).
  - vm_compute. reflexivity.
  - vm_compute. discriminate.
  - vm_compute. reflexivity.
  - split; [exact Hrun|exact Hsheets].
Defined.

(** The file variant on a document without any track element: the
    date-named worksheet is created all the same, holding the header
    row only. *)
Lemma xml_to_sheets_empty_creates_worksheet :
  let w := mock_world [] mock_sp in
  xml_rows (w_xml w) = [] /\
  fst (xml_to_sheets w) = Ok tt /\
  ops (w_ss (snd (xml_to_sheets w)))
  = [ AddWorksheet (str "2025-04-26") 1 11;
      UpdateCells (str "2025-04-26") [cells FIELDS] ] /\
  worksheets (w_ss (snd (xml_to_sheets w))) !! str "2025-04-26"
  = Some (mkWorksheet 1 11 [cells FIELDS]).
Proof.
  intros w.
  assert (Henv : first_unset (w_env w) xml_required_vars = None)
    by (vm_compute; reflexivity).
  rewrite (xml_to_sheets_run w Henv). cbn [fst snd].
  split; [vm_compute; reflexivity|].
  split; [reflexivity|].
  split; [vm_compute; reflexivity|].
  unfold replaced. cbn [w_ss set_out set_ss worksheets].
  replace (xml_sheet_name w) with (str "2025-04-26")
    by (vm_compute; reflexivity).
  rewrite lookup_insert_eq. vm_compute. reflexivity.
Qed.

(** ** C7: the limit argument (liked-tracks variant) *)

Section LimitArgument.
Context `{Python}.

Lemma parse_limit_run w :
  parse_limit w
  = match List.nth_error (w_argv w) 1 with
    | Some arg =>
        match py_int arg with
        | Some limit => (Ok limit, w)
        | None => (Raise (SystemExit usage), w)
        end
    | None => (Ok DEFAULT_LIMIT, w)
    end.
Proof.
  unfold parse_limit, bind, read.
  destruct (w_argv w) as [|prog [|arg rest]]; cbn; try reflexivity.
  destruct (py_int arg); reflexivity.
Qed.

(** Whatever it returns, [fetch_recent_liked] issues its one request. *)
Lemma fetch_recent_liked_request limit w :
  snd (fetch_recent_liked limit w)
  = set_sp (issue (GetSavedTracks limit) (w_sp w)) w.
Proof. reflexivity. Qed.

(** After a retrieval with [limit], the rest of [main] only prints. *)
Lemma likes_after_fetch limit w :
  w_sp (snd ((recent <- fetch_recent_liked limit ;;
              match recent with
              | [] => print (str "No saved tracks found.")
              | _ =>
                  print ([10%N] ++ str "Your " ++ dec (List.length recent)
                           ++ str " most-recent liked songs:" ++ [10%N]) ;;
                  print_liked 1 recent ;;
                  print []
              end) w))
  = issue (GetSavedTracks limit) (w_sp w).
Proof.
  unfold bind at 1.
  pose proof (fetch_recent_liked_request limit w) as Hreq.
  destruct (fetch_recent_liked limit w) as [[recent|e] w1]; cbn [snd] in *;
    subst w1; [|reflexivity].
  destruct recent as [|t recent]; [reflexivity|].
  unfold bind at 1. unfold print at 1.
  unfold bind at 1. rewrite print_liked_lines. reflexivity.
Qed.

(** A bad argument stops the run before any request, whatever the
    environment holds. *)
Lemma likes_main_bad_argument_no_request w arg :
  List.nth_error (w_argv w) 1 = Some arg ->
  py_int arg = None ->
  snd (likes_main w) = w /\
  exists msg, fst (likes_main w) = Raise (SystemExit msg).
Proof.
  intros Harg Hint.
  assert (Hrun : exists msg, likes_main w = (Raise (SystemExit msg), w)).
  { unfold likes_main.
    unfold bind at 1. rewrite check_env_run.
    destruct (first_unset (w_env w) likes_required_vars) as [var|].
    - eexists. reflexivity.
    - unfold bind at 1. rewrite parse_limit_run, Harg, Hint.
      eexists. reflexivity. }
  destruct Hrun as [msg Hrun]. rewrite Hrun.
  split; [reflexivity|]. now exists msg.
Qed.

(** C7.  In the liked-tracks variant, in a run whose configuration is in
    place: an argument that does not parse as an integer ends the run
    with the usage message, the world untouched, so no request has been
    issued; without an argument the limit is 20, the one request issued
    being the saved-tracks request for 20 records. *)
Theorem likes_main_limit_argument (w : World) :
  first_unset (w_env w) likes_required_vars = None ->
  (forall arg,
      List.nth_error (w_argv w) 1 = Some arg ->
      py_int arg = None ->
      likes_main w = (Raise (SystemExit usage), w) /\
      requests (w_sp (snd (likes_main w))) = requests (w_sp w)) /\
  (List.nth_error (w_argv w) 1 = None ->
   DEFAULT_LIMIT = 20%Z /\
   requests (w_sp (snd (likes_main w)))
   = requests (w_sp w) ++ [GetSavedTracks 20]).
Proof.
  intros Henv. split.
  - intros arg Harg Hint.
    assert (Hrun : likes_main w = (Raise (SystemExit usage), w)).
    { unfold likes_main.
      unfold bind at 1. rewrite check_env_run, Henv.
      unfold bind at 1. now rewrite parse_limit_run, Harg, Hint. }
    rewrite Hrun. split; reflexivity.
  - intros Hnone. split; [reflexivity|].
    unfold likes_main.
    unfold bind at 1. rewrite check_env_run, Henv.
    unfold bind at 1. rewrite parse_limit_run, Hnone.
    rewrite likes_after_fetch. reflexivity.
Qed.

End LimitArgument.

(** The argument ["abc"]: the usage message and no request; no argument:
    one request, for 20 records. *)
Lemma likes_main_limit_argument_witness :
  let bad := mock_world [str "recent_likes.py"; str "abc"] mock_sp in
  let none := mock_world [str "recent_likes.py"] mock_sp in
  (@likes_main example_python bad = (Raise (SystemExit usage), bad) /\
   requests (w_sp (snd (@likes_main example_python bad))) = []) /\
  requests (w_sp (snd (@likes_main example_python none)))
  = [GetSavedTracks 20].
Proof.
  intros bad none. split.
  - destruct (@likes_main_limit_argument example_python bad) as [Hbad _].
    + vm_compute. reflexivity.
    + apply (Hbad (str "abc")); vm_compute; reflexivity.
  - destruct (@likes_main_limit_argument example_python none) as [_ Hnone].
    + vm_compute. reflexivity.
    + destruct Hnone as [_ Hreq]; [vm_compute; reflexivity|]. exact Hreq.
Defined.

(** ** C10: the rows of the file variant *)

Lemma collect_rows_acc rows ts :
  collect_rows rows ts = rows ++ List.map track_row ts.
Proof.
  revert rows. induction ts as [|t ts IH]; intros rows; simpl.
  - now rewrite app_nil_r.
  - rewrite IH. now rewrite <- app_assoc.
Qed.

Lemma track_row_length t : List.length (track_row t) = List.length FIELDS.
Proof. unfold track_row. apply length_map. Qed.

Lemma findall_desc_tag tg root :
  Forall (fun e => tag_of e = tg) (findall_desc tg root).
Proof.
  unfold findall_desc. apply List.Forall_forall. intros e He.
  apply List.filter_In in He. destruct He as [_ He].
  unfold pystr_eqb in He. now apply bool_decide_eq_true in He.
Qed.

(** C10.  In the file variant every track element gives a row of
    exactly 11 entries, the [k]-th being the element's value for the
    [k]-th name of [FIELDS] (TrackID, Name, Artist, Album, Genre,
    TotalTime, AverageBpm, DateAdded, PlayCount, Rating, Location), or
    the empty string when the element has no such attribute; the rows
    are those of the document's TRACK elements in document order, and
    every row of the payload, header included, has [len(FIELDS)]
    columns. *)
Theorem track_row_spec (t root : Element) :
  FIELDS
  = [ str "TrackID"; str "Name"; str "Artist"; str "Album"; str "Genre";
      str "TotalTime"; str "AverageBpm"; str "DateAdded"; str "PlayCount";
      str "Rating"; str "Location" ] /\
  List.length FIELDS = 11 /\
  List.length (track_row t) = 11 /\
  (forall k f,
      List.nth_error FIELDS k = Some f ->
      List.nth_error (track_row t) k
      = Some (match attrib_of t !! f with
              | Some v => v
              | None => []
              end)) /\
  xml_rows root = List.map track_row (findall_desc (str "TRACK") root) /\
  Forall (fun e => tag_of e = str "TRACK") (findall_desc (str "TRACK") root) /\
  List.length (xml_payload root) = List.length (xml_rows root) + 1 /\
  Forall (fun row => List.length row = List.length FIELDS) (xml_payload root).
Proof.
  split; [reflexivity|]. split; [reflexivity|].
  split; [rewrite track_row_length; reflexivity|].
  split.
  { intros k f Hk. unfold track_row.
    rewrite List.nth_error_map, Hk. reflexivity. }
  assert (Hrows : xml_rows root
                  = List.map track_row (findall_desc (str "TRACK") root))
    by apply collect_rows_acc.
  split; [exact Hrows|].
  split; [apply findall_desc_tag|].
  unfold xml_payload. split.
  - rewrite length_map. simpl. lia.
  - apply List.Forall_map. constructor.
    + unfold cells. now rewrite length_map.
    + rewrite Hrows. apply List.Forall_map, List.Forall_forall.
      intros e _. unfold cells. rewrite length_map. apply track_row_length.
Qed.

(** A track element with two of the attributes, and one the script does
    not ask for. *)
Example track_row_example :
  track_row
    (Elem (str "TRACK")
          (list_to_map [ (str "Name", str "Song");
                         (str "TrackID", str "7");
                         (str "Kind", str "MP3 File") ])
          [])
  = [ str "7"; str "Song"; []; []; []; []; []; []; []; []; [] ].
Proof. vm_compute. reflexivity. Qed.

(** [.//TRACK] finds the track elements at any depth, in document
    order, and not the root. *)
Example findall_desc_example :
  let tr (n : pystr) :=
    Elem (str "TRACK") (list_to_map [(str "Name", n)]) [] in
  List.map track_row
    (findall_desc (str "TRACK")
       (Elem (str "TRACK") ∅
             [ Elem (str "COLLECTION") ∅ [tr (str "a"); tr (str "b")];
               tr (str "c") ]))
  = List.map (fun n => [ []; n; []; []; []; []; []; []; []; []; [] ])
             [str "a"; str "b"; str "c"].
Proof. vm_compute. reflexivity. Qed.

(* ===================================================================== *)
(** * Further properties of the scripts *)
(* ===================================================================== *)

(** ** Identifier extraction: query strings and the documented shapes *)

Lemma item0_split_app sep a b :
  (forall c, List.In c a -> c <> sep) ->
  item0 (split sep (a ++ b)) = a ++ item0 (split sep b).
Proof.
  induction a as [|c a IH]; intros Hno; simpl; [reflexivity|].
  destruct (N.eqb_spec c sep) as [->|Hne].
  - exfalso. apply (Hno sep); [now left|reflexivity].
  - assert (IH' : item0 (split sep (a ++ b)) = a ++ item0 (split sep b))
      by (apply IH; intros c' Hc'; apply Hno; now right).
    pose proof (split_nonempty sep (a ++ b)) as Hs.
    unfold item0 in *. destruct (split sep (a ++ b)) as [|p ps];
      [congruence|].
    simpl in *. now rewrite IH'.
Qed.

Lemma strip_query_fragment_app a b :
  (forall c, List.In c a -> c <> chr "?" /\ c <> chr "#") ->
  strip_query_fragment (a ++ b) = a ++ strip_query_fragment b.
Proof.
  intros Hno. unfold strip_query_fragment.
  rewrite item0_split_app by (intros c Hc; now apply Hno).
  apply item0_split_app. intros c Hc. now apply Hno.
Qed.

Lemma strip_query_fragment_clean a :
  (forall c, List.In c a -> c <> chr "?" /\ c <> chr "#") ->
  strip_query_fragment a = a.
Proof.
  intros Hno. rewrite <- (app_nil_r a) at 1.
  rewrite strip_query_fragment_app by exact Hno.
  apply app_nil_r.
Qed.

Lemma item0_split_sep sep x : item0 (split sep (sep :: x)) = [].
Proof. simpl. now rewrite N.eqb_refl. Qed.

Lemma strip_query_fragment_at_mark c q :
  c = chr "?" \/ c = chr "#" -> strip_query_fragment (c :: q) = [].
Proof.
  unfold strip_query_fragment. intros [->| ->].
  - rewrite item0_split_sep. reflexivity.
  - change (chr "#" :: q) with ([chr "#"] ++ q).
    rewrite (item0_split_app (chr "?") [chr "#"] q).
    + apply item0_split_sep.
    + intros c [<-|[]]. discriminate.
Qed.

(** The result of extraction is a function of the cut input. *)
Lemma extract_playlist_id_strip s s' :
  strip_query_fragment s = strip_query_fragment s' ->
  extract_playlist_id s = extract_playlist_id s'.
Proof. intros E. unfold extract_playlist_id. now rewrite E. Qed.

(** A query string or a fragment changes nothing: neither the
    identifier returned nor the error raised (whose message quotes the
    reference without them). *)
Theorem extract_ignores_query_and_fragment (u q : pystr) :
  (forall c, List.In c u -> c <> chr "?" /\ c <> chr "#") ->
  extract_playlist_id (u ++ chr "?" :: q) = extract_playlist_id u /\
  extract_playlist_id (u ++ chr "#" :: q) = extract_playlist_id u.
Proof.
  intros Hno.
  split; apply extract_playlist_id_strip;
    rewrite (strip_query_fragment_app u _ Hno),
            (strip_query_fragment_clean u Hno).
  - rewrite strip_query_fragment_at_mark by now left.
    apply app_nil_r.
  - rewrite strip_query_fragment_at_mark by now right.
    apply app_nil_r.
Qed.

Lemma extract_ignores_query_and_fragment_witness :
  extract_playlist_id
    (str "spotify:playlist:abc" ++ chr "?" :: str "si=/playlist/zzz")
  = extract_playlist_id (str "spotify:playlist:abc") /\
  extract_playlist_id
    (str "spotify:playlist:abc" ++ chr "#" :: str "si=/playlist/zzz")
  = extract_playlist_id (str "spotify:playlist:abc").
Proof.
  apply (extract_ignores_query_and_fragment (str "spotify:playlist:abc")).
  intros c Hc. vm_compute in Hc.
  repeat (destruct Hc as [<-|Hc]; [split; discriminate|]).
  destruct Hc.
Defined.

Lemma search_here p s g :
  Re.match_at p s = Some g -> Re.search p s = Some g.
Proof. intros Hm. destruct s; simpl; now rewrite Hm. Qed.

Lemma match_at_literal p id post :
  id <> [] ->
  Forall (fun c => Re.klass p c = true) id ->
  match post with [] => True | c :: _ => Re.klass p c = false end ->
  Re.match_at p (Re.literal p ++ id ++ post) = Some id.
Proof.
  intros Hne Hall Hpost. apply match_at_Some. exists post. auto.
Qed.

(** The path pattern needs a ['/'], which no identifier contains. *)
Lemma search_url_pattern_alnum s :
  Forall (fun c => ascii_alnum c = true) s ->
  Re.search url_pattern s = None.
Proof.
  assert (Hnone : forall t, Forall (fun c => ascii_alnum c = true) t ->
                            Re.match_at url_pattern t = None).
  { intros t Ht. unfold Re.match_at.
    destruct (Re.starts_with (Re.literal url_pattern) t) as [r|] eqn:Hs;
      [|reflexivity].
    apply starts_with_spec in Hs. subst t. exfalso.
    rewrite List.Forall_forall in Ht.
    assert (Hin : List.In 47%N (Re.literal url_pattern ++ r))
      by (apply in_or_app; left; vm_compute; tauto).
    apply Ht in Hin. discriminate. }
  induction 1 as [|c s Hc Hs IH]; cbn [Re.search].
  - now rewrite Hnone by constructor.
  - rewrite Hnone by now constructor. exact IH.
Qed.

Lemma alnum_not_mark id :
  Forall (fun c => ascii_alnum c = true) id ->
  forall c, List.In c id -> c <> chr "?" /\ c <> chr "#".
Proof.
  intros Hall c Hc. rewrite List.Forall_forall in Hall.
  apply Hall in Hc. split; intros ->; discriminate.
Qed.

Lemma strip_query_fragment_head rest :
  match rest with [] => True | c :: _ => ascii_alnum c = false end ->
  match strip_query_fragment rest with
  | [] => True
  | c :: _ => ascii_alnum c = false
  end.
Proof.
  intros Hrest.
  destruct (strip_query_fragment_spec rest) as [_ (r & E & _)].
  destruct (strip_query_fragment rest) as [|c x]; [exact I|].
  rewrite E in Hrest. exact Hrest.
Qed.

(** The two documented shapes give back the identifier they were built
    from: for every non-empty alphanumeric [id], the share link
    [https://open.spotify.com/playlist/<id>], followed by anything that
    does not continue the identifier, and the URI
    [spotify:playlist:<id>]. *)
Theorem extract_documented_shapes (id rest : pystr) :
  id <> [] ->
  Forall (fun c => ascii_alnum c = true) id ->
  match rest with [] => True | c :: _ => ascii_alnum c = false end ->
  extract_playlist_id (str "https://open.spotify.com/playlist/" ++ id ++ rest)
  = Ok id /\
  extract_playlist_id (str "spotify:playlist:" ++ id) = Ok id.
Proof.
  intros Hne Hall Hrest. split.
  - unfold extract_playlist_id.
    rewrite strip_query_fragment_app.
    2:{ intros c Hc. vm_compute in Hc.
        repeat (destruct Hc as [<-|Hc]; [split; discriminate|]).
        destruct Hc. }
    rewrite strip_query_fragment_app by now apply alnum_not_mark.
    pose proof (strip_query_fragment_head rest Hrest) as Hpost.
    set (post := strip_query_fragment rest) in *.
    unfold patterns, first_match. fold url_pattern.
    replace (Re.search url_pattern
               (str "https://open.spotify.com/playlist/" ++ id ++ post))
      with (Re.search url_pattern (Re.literal url_pattern ++ id ++ post))
      by (generalize (id ++ post); intros X; vm_compute; reflexivity).
    rewrite (search_here _ _ id); [reflexivity|].
    now apply match_at_literal.
  - unfold extract_playlist_id.
    rewrite strip_query_fragment_clean.
    2:{ intros c Hc. apply in_app_or in Hc. destruct Hc as [Hc|Hc].
        - vm_compute in Hc.
          repeat (destruct Hc as [<-|Hc]; [split; discriminate|]).
          destruct Hc.
        - now apply (alnum_not_mark id). }
    unfold patterns, first_match. fold url_pattern. fold uri_pattern.
    replace (Re.search url_pattern (str "spotify:playlist:" ++ id))
      with (Re.search url_pattern id)
      by (generalize id; intros X; vm_compute; reflexivity).
    rewrite search_url_pattern_alnum by exact Hall.
    replace (Re.search uri_pattern (str "spotify:playlist:" ++ id))
      with (Re.search uri_pattern (Re.literal uri_pattern ++ id ++ []))
      by (rewrite app_nil_r; generalize id; intros X; vm_compute;
          reflexivity).
    rewrite (search_here _ _ id); [reflexivity|].
    now apply match_at_literal.
Qed.

Lemma extract_documented_shapes_witness :
  extract_playlist_id
    (str "https://open.spotify.com/playlist/" ++ str "37i9dQZF1DX0XUsuxWHRQd"
       ++ str "/tracks?si=1")
  = Ok (str "37i9dQZF1DX0XUsuxWHRQd") /\
  extract_playlist_id (str "spotify:playlist:" ++ str "37i9dQZF1DX0XUsuxWHRQd")
  = Ok (str "37i9dQZF1DX0XUsuxWHRQd").
Proof.
  apply (extract_documented_shapes (str "37i9dQZF1DX0XUsuxWHRQd")
                                   (str "/tracks?si=1")).
  - discriminate.
  - repeat constructor.
  - reflexivity.
Defined.

(** ** Configuration and input errors *)

Lemma first_unset_Some env vars var :
  first_unset env vars = Some var ->
  exists before after,
    vars = before ++ var :: after /\
    Forall (fun v => truthy (getenv env v) = true) before /\
    truthy (getenv env var) = false.
Proof.
  induction vars as [|v vars IH]; simpl; [discriminate|].
  destruct (truthy (getenv env v)) eqn:Hv.
  - intros Hf. destruct (IH Hf) as (before & after & -> & Hb & Hu).
    exists (v :: before), after. repeat split; auto.
  - intros [= <-]. exists [], vars. repeat split; auto.
Qed.

(** Each script stops at the first configuration value that is unset or
    empty, in the order it checks them, with a message naming that
    value, and has by then read, printed, requested and written
    nothing: the playlist and liked-tracks scripts exit, the file script
    raises [RuntimeError]. *)
Theorem missing_configuration_stops_the_run `{Python} (w : World)
        (vars : list pystr) (var : pystr) :
  first_unset (w_env w) vars = Some var ->
  (exists before after,
      vars = before ++ var :: after /\
      Forall (fun v => truthy (getenv (w_env w) v) = true) before /\
      truthy (getenv (w_env w) var) = false) /\
  (vars = required_vars ->
   playlist_main w = (Raise (SystemExit (not_set_message var)), w)) /\
  (vars = likes_required_vars ->
   likes_main w = (Raise (SystemExit (not_set_message var)), w)) /\
  (vars = xml_required_vars ->
   xml_to_sheets w
   = (Raise (RuntimeError (var ++ str " is not set in .env or environment")),
      w)).
Proof.
  intros Hf. split; [now apply first_unset_Some|].
  split; [|split]; intros ->.
  - unfold playlist_main. unfold bind at 1.
    now rewrite check_env_run, Hf.
  - unfold likes_main. unfold bind at 1.
    now rewrite check_env_run, Hf.
  - unfold xml_to_sheets. unfold bind at 1. unfold read at 1.
    unfold bind at 1. now rewrite xml_check_env_run, Hf.
Qed.

(** Only the client id is set: the playlist script names the client
    secret. *)
Lemma missing_configuration_stops_the_run_witness :
  let w := bare_world {[ str "SPOTIFY_CLIENT_ID" := str "id" ]}
                      mock_url mock_sp in
  @playlist_main example_python w
  = (Raise (SystemExit
              (str "Error: SPOTIFY_CLIENT_SECRET is not set in your .env or environment.")),
     w).
Proof.
  intros w.
  destruct (@missing_configuration_stops_the_run example_python w
              required_vars (str "SPOTIFY_CLIENT_SECRET"))
    as (_ & Hplay & _); [vm_compute; reflexivity|].
  exact (Hplay eq_refl).
Defined.

(** A reference that is empty once trimmed ends the playlist script
    with its own message, before any request. *)
Theorem blank_reference_stops_the_run `{Python} (w : World) :
  first_unset (w_env w) required_vars = None ->
  strip (w_stdin w) = [] ->
  playlist_main w
  = (Raise (SystemExit (str "Error: No playlist URL provided.")), w).
Proof.
  intros Henv Hblank. unfold playlist_main.
  unfold bind at 1. rewrite check_env_run, Henv.
  unfold bind at 1. unfold read at 1. now rewrite Hblank.
Qed.

Lemma blank_reference_stops_the_run_witness :
  let w := bare_world mock_env (str "  ") mock_sp in
  @playlist_main example_python w
  = (Raise (SystemExit (str "Error: No playlist URL provided.")), w).
Proof.
  intros w. apply (@blank_reference_stops_the_run example_python w);
    vm_compute; reflexivity.
Defined.

(** ** Failures of retrieval in the playlist script *)

Lemma page_loop_raises pending :
  forall first tracks sp e sp',
    page_loop pending first tracks sp = (Raise e, sp') ->
    exists msg, e = APIError msg.
Proof.
  induction pending as [|p pending IH]; intros first tracks sp e sp';
    cbn [page_loop]; destruct (truthy (next first)); try discriminate.
  - intros [= <- _]. eauto.
  - apply IH.
Qed.

Lemma get_playlist_data_raises playlist_url sp e sp' :
  get_playlist_data playlist_url sp = (Raise e, sp') ->
  (exists msg, e = ValueError msg /\ sp' = sp) \/ (exists msg, e = APIError msg).
Proof.
  unfold get_playlist_data, extract_playlist_id.
  destruct (first_match patterns (strip_query_fragment playlist_url)).
  - cbn [sp_playlist sp_playlist_tracks].
    destruct (page_loop _ _ _ _) as [[tracks|e'] sp''] eqn:Hloop;
      [discriminate|].
    intros [= <- <-]. right. eapply page_loop_raises. exact Hloop.
  - intros [= <- <-]. left. eauto.
Qed.

(** When retrieval raises, the playlist script exits with
    ["Error: "] followed by the exception's text, and the spreadsheet
    has not been touched; when the reference matches neither shape, the
    service has not been asked anything either. *)
Theorem retrieval_failure_writes_nothing `{Python} (w : World) (e : exn)
        (sp' : Spotify) :
  first_unset (w_env w) required_vars = None ->
  strip (w_stdin w) <> [] ->
  get_playlist_data (strip (w_stdin w)) (w_sp w) = (Raise e, sp') ->
  playlist_main w
  = (Raise (SystemExit (str "Error: " ++ exn_str e)),
     set_out (w_out w ++ [str "Fetching playlist data from Spotify..."])
             (set_sp sp' w)) /\
  w_ss (snd (playlist_main w)) = w_ss w /\
  ((forall id, extract_playlist_id (strip (w_stdin w)) <> Ok id) ->
   w_sp (snd (playlist_main w)) = w_sp w).
Proof.
  intros Henv Hurl Hdata.
  assert (Hrun : playlist_main w
                 = (Raise (SystemExit (str "Error: " ++ exn_str e)),
                    set_out (w_out w
                               ++ [str "Fetching playlist data from Spotify..."])
                            (set_sp sp' w))).
  { unfold playlist_main.
    unfold bind at 1. rewrite check_env_run, Henv.
    unfold bind at 1. unfold read at 1.
    destruct (strip (w_stdin w)) as [|c u] eqn:Hu; [congruence|].
    unfold try_except.
    unfold bind at 1. unfold print at 1.
    unfold bind at 1. unfold with_sp_result at 1.
    cbn [w_sp set_out]. rewrite Hdata.
    destruct (get_playlist_data_raises _ _ _ _ Hdata)
      as [(msg & -> & _)|(msg & ->)]; reflexivity. }
  rewrite Hrun. cbn [snd].
  split; [reflexivity|]. split; [reflexivity|].
  intros Hno. unfold get_playlist_data in Hdata.
  destruct (extract_playlist_id (strip (w_stdin w))) as [id|e0] eqn:Hid.
  - now destruct (Hno id).
  - injection Hdata as _ <-. reflexivity.
Qed.

(** The reference [not a playlist] matches neither shape: the script
    exits with the extraction error and no request has been issued. *)
Lemma retrieval_failure_writes_nothing_witness :
  let w := bare_world mock_env (str "not a playlist") mock_sp in
  @playlist_main example_python w
  = (Raise (SystemExit
              (str "Error: Could not extract playlist ID from URL: not a playlist")),
     set_out [str "Fetching playlist data from Spotify..."] w) /\
  requests (w_sp (snd (@playlist_main example_python w))) = [].
Proof.
  intros w.
  destruct (@retrieval_failure_writes_nothing example_python w
              (ValueError
                 (str "Could not extract playlist ID from URL: not a playlist"))
              mock_sp)
    as (Hrun & _ & Hsp).
  - vm_compute. reflexivity.
  - vm_compute. discriminate.
  - vm_compute. reflexivity.
  - split; [exact Hrun|]. rewrite Hsp; [reflexivity|].
    intros id. vm_compute. discriminate.
Defined.

(** ** The playlist script from end to end *)

(** With a playlist that has entries, the playlist script returns
    normally; the spreadsheet then holds, under the sanitized playlist
    name, a worksheet of [n + 1] rows and 3 columns with the header and
    the numbered entries, and the console shows the progress lines in
    order, ending with ["Done!"]. *)
Theorem playlist_main_writes_the_playlist `{Python} (w : World)
        (playlist_name : pystr) (tracks : list SongEntry) (sp' : Spotify) :
  first_unset (w_env w) required_vars = None ->
  strip (w_stdin w) <> [] ->
  tracks <> [] ->
  get_playlist_data (strip (w_stdin w)) (w_sp w)
  = (Ok (playlist_name, tracks), sp') ->
  let title := sheet_name_of playlist_name in
  let n := List.length tracks in
  let w' := snd (playlist_main w) in
  fst (playlist_main w) = Ok tt /\
  w_sp w' = sp' /\
  worksheets (w_ss w')
  = <[title := mkWorksheet (n + 1) 3 (header :: numbered 1 tracks)]>
      (worksheets (w_ss w)) /\
  w_out w'
  = w_out w
      ++ [ str "Fetching playlist data from Spotify...";
           str "Found playlist " ++ quoted playlist_name ++ str " with "
             ++ dec n ++ str " tracks.";
           str "Creating Google Sheets worksheet..." ]
      ++ deletion_lines (worksheets (w_ss w)) title
      ++ [ str "Created worksheet " ++ quoted title ++ str " with "
             ++ dec n ++ str " tracks.";
           str "Spreadsheet URL: " ++ url (w_ss w);
           str "Done!" ].
Proof.
  intros Henv Hurl Hne Hdata title n w'. subst w'.
  assert (Hrun : exists w1,
             playlist_main w = (Ok tt, w1) /\
             w_sp w1 = sp' /\
             worksheets (w_ss w1)
             = <[title := mkWorksheet (n + 1) 3 (header :: numbered 1 tracks)]>
                 (worksheets (w_ss w)) /\
             w_out w1
             = ((((w_out w ++ [str "Fetching playlist data from Spotify..."])
                    ++ [str "Found playlist " ++ quoted playlist_name
                          ++ str " with " ++ dec n ++ str " tracks."])
                   ++ [str "Creating Google Sheets worksheet..."])
                  ++ deletion_lines (worksheets (w_ss w)) title)
                 ++ [ str "Created worksheet " ++ quoted title ++ str " with "
                        ++ dec n ++ str " tracks.";
                      str "Spreadsheet URL: " ++ url (w_ss w) ]
                 ++ [str "Done!"]).
  { unfold playlist_main.
    unfold bind at 1. rewrite check_env_run, Henv.
    unfold bind at 1. unfold read at 1.
    destruct (strip (w_stdin w)) as [|c u] eqn:Hu; [congruence|].
    unfold try_except.
    unfold bind at 1. unfold print at 1.
    unfold bind at 1. unfold with_sp_result at 1.
    cbn [w_sp set_out]. rewrite Hdata. subst n.
    destruct tracks as [|t tracks]; [congruence|].
    unfold bind at 1. unfold print at 1.
    unfold bind at 1. unfold print at 1.
    unfold bind at 1. rewrite create_sheets_worksheet_run.
    unfold print, replaced. eexists. split; [reflexivity|].
    cbn [w_out w_ss w_sp set_out set_ss set_sp worksheets url].
    fold title.
    split; [reflexivity|]. split; [reflexivity|].
    rewrite <- !app_assoc. reflexivity. }
  destruct Hrun as (w1 & Hrun & Hsp & Hsheets & Hout).
  rewrite Hrun. cbn [fst snd].
  split; [reflexivity|]. split; [exact Hsp|]. split; [exact Hsheets|].
  rewrite Hout. rewrite <- !app_assoc. reflexivity.
Qed.

(** The two mock pages: the worksheet ["MyPlaylist Summer 24"] with the
    header and two numbered rows. *)
Lemma playlist_main_writes_the_playlist_witness :
  let w := mock_world [] mock_sp in
  fst (@playlist_main example_python w) = Ok tt /\
  worksheets (w_ss (snd (@playlist_main example_python w)))
    !! str "MyPlaylist Summer 24"
  = Some (mkWorksheet 3 3
            [ header;
              [CInt 1; CStr (str "one - A, B");
               CStr (str "https://open.spotify.com/track/one")];
              [CInt 2; CStr (str "two - A, B");
               CStr (str "https://open.spotify.com/track/two")] ]).
Proof.
  intros w.
  destruct (@playlist_main_writes_the_playlist example_python w
              (str "My/Playlist: Summer '24!")
              (page_entries mock_page1 ++ page_entries mock_page2)
              (snd (get_playlist_data mock_url mock_sp)))
    as (Hok & _ & Hsheets & _).
  - vm_compute. reflexivity.
  - vm_compute. discriminate.
  - vm_compute. discriminate.
  - vm_compute. reflexivity.
  - split; [exact Hok|]. rewrite Hsheets.
    replace (@sheet_name_of example_python (str "My/Playlist: Summer '24!"))
      with (str "MyPlaylist Summer 24") by (vm_compute; reflexivity).
    rewrite lookup_insert_eq. vm_compute. reflexivity.
Defined.

(** ** What a write leaves in the spreadsheet *)

Lemma numbered_width i tracks :
  Forall (fun row : list cell => List.length row = 3) (numbered i tracks).
Proof.
  revert i. induction tracks as [|t tracks IH]; intros i; simpl;
    constructor; auto.
Qed.

Lemma xml_payload_width root :
  Forall (fun row : list cell => List.length row = List.length FIELDS)
         (xml_payload root).
Proof.
  unfold xml_payload, xml_rows. rewrite collect_rows_acc.
  apply List.Forall_map. constructor.
  - unfold cells. now rewrite length_map.
  - apply List.Forall_map, List.Forall_forall.
    intros e _. unfold cells. rewrite length_map. apply track_row_length.
Qed.

(** The block written always fills the worksheet created for it: in
    both tabular scripts the worksheet found under the destination name
    after a run has as many rows of values as it was created with, and
    every row has as many cells as the worksheet has columns. *)
Theorem written_block_fits_the_worksheet `{Python} (w : World)
        (playlist_name : pystr) (tracks : list SongEntry) :
  (exists sheet,
      worksheets (w_ss (snd (create_sheets_worksheet playlist_name tracks w)))
        !! sheet_name_of playlist_name = Some sheet /\
      ws_rows sheet = List.length (ws_values sheet) /\
      ws_cols sheet = 3 /\
      Forall (fun row => List.length row = ws_cols sheet) (ws_values sheet)) /\
  (first_unset (w_env w) xml_required_vars = None ->
   exists sheet,
     worksheets (w_ss (snd (xml_to_sheets w))) !! xml_sheet_name w
     = Some sheet /\
     ws_rows sheet = List.length (ws_values sheet) /\
     ws_cols sheet = 11 /\
     List.length (ws_values sheet)
     = List.length (findall_desc (str "TRACK") (w_xml w)) + 1 /\
     Forall (fun row => List.length row = ws_cols sheet) (ws_values sheet)).
Proof.
  split.
  - rewrite create_sheets_worksheet_run. unfold replaced.
    cbn [snd w_ss set_out set_ss worksheets].
    rewrite lookup_insert_eq. eexists. split; [reflexivity|].
    cbn [ws_rows ws_cols ws_values].
    split; [simpl; rewrite numbered_length; lia|].
    split; [reflexivity|].
    constructor; [reflexivity|apply numbered_width].
  - intros Henv. rewrite (xml_to_sheets_run w Henv). unfold replaced.
    cbn [snd w_ss set_out set_ss worksheets].
    rewrite lookup_insert_eq. eexists. split; [reflexivity|].
    cbn [ws_rows ws_cols ws_values].
    assert (Hlen : List.length (xml_payload (w_xml w))
                   = List.length (xml_rows (w_xml w)) + 1).
    { unfold xml_payload. rewrite length_map. simpl. lia. }
    split; [now rewrite Hlen|].
    split; [reflexivity|].
    split.
    + rewrite Hlen. unfold xml_rows. rewrite collect_rows_acc.
      simpl. now rewrite length_map.
    + apply xml_payload_width.
Qed.

(** A write touches one worksheet only, and repeating it changes
    nothing more: every worksheet under another name is as it was, a
    second run with the same input leaves the same worksheets as the
    first, and that second run deletes exactly the worksheet the first
    one created. *)
Theorem rerun_changes_nothing_else `{Python} (w : World)
        (playlist_name : pystr) (tracks : list SongEntry) :
  let title := sheet_name_of playlist_name in
  let w1 := snd (create_sheets_worksheet playlist_name tracks w) in
  let w2 := snd (create_sheets_worksheet playlist_name tracks w1) in
  (forall other, other <> title ->
                 worksheets (w_ss w1) !! other
                 = worksheets (w_ss w) !! other) /\
  worksheets (w_ss w2) = worksheets (w_ss w1) /\
  ops (w_ss w2)
  = ops (w_ss w1)
      ++ [ DelWorksheet title;
           AddWorksheet title (List.length tracks + 1) 3;
           UpdateCells title (header :: numbered 1 tracks) ].
Proof.
  intros title w1 w2. subst w2 w1.
  rewrite !create_sheets_worksheet_run. fold title. unfold replaced.
  cbn [snd w_ss set_out set_ss worksheets ops].
  split; [|split].
  - intros other Hne. now rewrite lookup_insert_ne.
  - apply insert_insert_eq.
  - f_equal. unfold deletion_ops. now rewrite lookup_insert_eq.
Qed.

(** ** The destination name *)

Section SheetNameInvariants.
Context `{Python}.

Lemma lstrip_id s :
  match s with [] => True | c :: _ => isspace c = false end ->
  lstrip s = s.
Proof. destruct s as [|c s]; simpl; [reflexivity|]. now intros ->. Qed.

Lemma strip_id s :
  match s with [] => True | c :: _ => isspace c = false end ->
  match List.rev s with [] => True | c :: _ => isspace c = false end ->
  strip s = s.
Proof.
  intros Hhead Hlast. unfold strip, rstrip.
  rewrite (lstrip_id s Hhead), (lstrip_id (List.rev s) Hlast).
  apply rev_involutive.
Qed.

Lemma filter_allowed_id s :
  Forall (fun c => allowed c = true) s -> List.filter allowed s = s.
Proof.
  induction 1 as [|c s Hc _ IH]; simpl; [reflexivity|].
  now rewrite Hc, IH.
Qed.

Lemma strip_keeps_allowed s :
  Forall (fun c => allowed c = true) s ->
  Forall (fun c => allowed c = true) (strip s).
Proof.
  intros Hs. destruct (strip_spec s) as (l & r & E & _).
  rewrite E in Hs. apply List.Forall_app in Hs. destruct Hs as [_ Hs].
  apply List.Forall_app in Hs. now destruct Hs.
Qed.

(** Whatever the playlist is called, the destination name consists of
    alphanumerics, underscores, whitespace and hyphens only, has at most
    100 characters and does not begin with whitespace; and a name that
    already is of that kind, and does not end with whitespace either,
    is used as it is. *)
Theorem sheet_name_of_invariants (playlist_name : pystr) :
  let sheet_name := sheet_name_of playlist_name in
  Forall (fun c => allowed c = true) sheet_name /\
  List.length sheet_name <= 100 /\
  match sheet_name with [] => True | c :: _ => isspace c = false end /\
  (Forall (fun c => allowed c = true) playlist_name ->
   match playlist_name with [] => True | c :: _ => isspace c = false end ->
   match List.rev playlist_name with
   | [] => True
   | c :: _ => isspace c = false
   end ->
   List.length playlist_name <= 100 ->
   sheet_name = playlist_name).
Proof.
  intros sheet_name.
  assert (Hs : sheet_name
               = List.firstn 100 (strip (List.filter allowed playlist_name))).
  { unfold sheet_name, sheet_name_of.
    now rewrite truncate100_firstn, sub_keeps_allowed. }
  split; [|split; [|split]].
  - rewrite Hs.
    assert (Hall : Forall (fun c => allowed c = true)
                          (strip (List.filter allowed playlist_name))).
    { apply strip_keeps_allowed. apply List.Forall_forall.
      intros c Hc. now apply List.filter_In in Hc. }
    rewrite <- (firstn_skipn 100 (strip _)) in Hall.
    apply List.Forall_app in Hall. now destruct Hall.
  - rewrite Hs, length_firstn. lia.
  - rewrite Hs.
    destruct (strip_spec (List.filter allowed playlist_name))
      as (l & r & _ & _ & _ & Hhead & _).
    destruct (strip (List.filter allowed playlist_name)); [exact I|].
    exact Hhead.
  - intros Hall Hhead Hlast Hlen. rewrite Hs.
    rewrite (filter_allowed_id _ Hall), (strip_id _ Hhead Hlast).
    now apply firstn_all2.
Qed.

End SheetNameInvariants.

(** ** The liked-tracks script from end to end *)

Section LikesRun.
Context `{Python}.

(** With the configuration in place and an argument that parses as the
    integer [limit], the liked-tracks script asks the service once, for
    [limit] records; when retrieval succeeds it returns normally, having
    printed either ["No saved tracks found."] alone, or a heading with
    the number of entries, one line per entry in order, and an empty
    line. *)
Theorem likes_main_prints_the_entries (w : World) (arg : pystr)
        (limit : Z) (recent : list Liked) :
  first_unset (w_env w) likes_required_vars = None ->
  List.nth_error (w_argv w) 1 = Some arg ->
  py_int arg = Some limit ->
  fst (fetch_recent_liked limit w) = Ok recent ->
  fst (likes_main w) = Ok tt /\
  requests (w_sp (snd (likes_main w)))
  = requests (w_sp w) ++ [GetSavedTracks limit] /\
  w_out (snd (likes_main w))
  = w_out w
      ++ match recent with
         | [] => [str "No saved tracks found."]
         | _ :: _ =>
             [ [10%N] ++ str "Your " ++ dec (List.length recent)
                 ++ str " most-recent liked songs:" ++ [10%N] ]
               ++ liked_lines 1 recent ++ [[]]
         end.
Proof.
  intros Henv Harg Hint Hfetch.
  pose proof (fetch_recent_liked_request limit w) as Hreq.
  assert (Hrun : exists w1,
             likes_main w = (Ok tt, w1) /\
             w_sp w1 = issue (GetSavedTracks limit) (w_sp w) /\
             w_out w1
             = w_out w
                 ++ match recent with
                    | [] => [str "No saved tracks found."]
                    | _ :: _ =>
                        [ [10%N] ++ str "Your " ++ dec (List.length recent)
                            ++ str " most-recent liked songs:" ++ [10%N] ]
                          ++ liked_lines 1 recent ++ [[]]
                    end).
  { unfold likes_main.
    unfold bind at 1. rewrite check_env_run, Henv.
    unfold bind at 1. rewrite parse_limit_run, Harg, Hint.
    unfold bind at 1.
    destruct (fetch_recent_liked limit w) as [r w0]. cbn [fst snd] in *.
    subst r w0. destruct recent as [|t recent].
    - unfold print. eexists. split; [reflexivity|]. split; reflexivity.
    - unfold bind at 1. unfold print at 1.
      unfold bind at 1. rewrite print_liked_lines.
      unfold print. eexists. split; [reflexivity|].
      cbn [w_sp w_out set_out set_sp]. split; [reflexivity|].
      rewrite <- !app_assoc. reflexivity. }
  destruct Hrun as (w1 & Hrun & Hsp & Hout). rewrite Hrun. cbn [fst snd].
  split; [reflexivity|]. split; [now rewrite Hsp|exact Hout].
Qed.

Lemma parse_saved_stops good bad rest parsed :
  Forall (fun item => is_Some (normalize item)) good ->
  normalize bad = None ->
  parse_saved parsed (good ++ bad :: rest)
  = Raise (ValueError
             (isoformat_error
                (replace (chr "Z") (str "+00:00") (added_at bad)))).
Proof.
  intros Hgood Hbad. revert parsed.
  induction Hgood as [|item good [l Hl] _ IH]; intros parsed; simpl.
  - unfold normalize in Hbad.
    destruct (fromisoformat _); [discriminate|reflexivity].
  - unfold normalize in Hl.
    destruct (fromisoformat _); [|discriminate]. apply IH.
Qed.

(** A timestamp [datetime.fromisoformat] rejects makes retrieval raise
    the [ValueError] of [fromisoformat], with its text, for the first
    such record among those retained (its timestamp with every ["Z"]
    replaced by ["+00:00"]), after the request has been issued; the
    script does not catch it, so it ends there and prints nothing, not
    even the entries before the bad one. *)
Theorem malformed_timestamp_ends_the_run (w : World) (arg : pystr)
        (limit : Z) (good rest : list SavedItem) (bad : SavedItem) :
  first_unset (w_env w) likes_required_vars = None ->
  List.nth_error (w_argv w) 1 = Some arg ->
  py_int arg = Some limit ->
  slice_to (saved_tracks (w_sp w) limit) limit = good ++ bad :: rest ->
  Forall (fun item => is_Some (normalize item)) good ->
  normalize bad = None ->
  let e := ValueError
             (isoformat_error
                (replace (chr "Z") (str "+00:00") (added_at bad))) in
  fetch_recent_liked limit w
  = (Raise e, set_sp (issue (GetSavedTracks limit) (w_sp w)) w) /\
  likes_main w = (Raise e, set_sp (issue (GetSavedTracks limit) (w_sp w)) w) /\
  w_out (snd (likes_main w)) = w_out w.
Proof.
  intros Henv Harg Hint Hslice Hgood Hbad e.
  assert (Hfetch : fetch_recent_liked limit w
                   = (Raise e,
                      set_sp (issue (GetSavedTracks limit) (w_sp w)) w)).
  { unfold fetch_recent_liked, bind, with_sp, sp_current_user_saved_tracks.
    rewrite Hslice. now rewrite (parse_saved_stops _ _ _ _ Hgood Hbad). }
  assert (Hrun : likes_main w
                 = (Raise e,
                    set_sp (issue (GetSavedTracks limit) (w_sp w)) w)).
  { unfold likes_main.
    unfold bind at 1. rewrite check_env_run, Henv.
    unfold bind at 1. rewrite parse_limit_run, Harg, Hint.
    unfold bind at 1. now rewrite Hfetch. }
  rewrite Hrun. split; [exact Hfetch|]. split; reflexivity.
Qed.

(** Whatever the sign of the limit, the records retained are an initial
    part of the response, never reordered: the first [limit] of them
    (all, when there are fewer) for a limit that is not negative, all
    but the last [-limit] for a negative one; and a successful retrieval
    returns their normalizations, position by position. *)
Theorem retained_records_are_a_prefix (w : World) (limit : Z) :
  let response := saved_tracks (w_sp w) limit in
  let retained := slice_to response limit in
  (exists dropped_tail, response = retained ++ dropped_tail) /\
  List.length retained
  = (if (limit <? 0)%Z
     then List.length response - Z.to_nat (- limit)
     else Nat.min (Z.to_nat limit) (List.length response)) /\
  (forall parsed,
      fst (fetch_recent_liked limit w) = Ok parsed ->
      List.map Some parsed = List.map normalize retained) /\
  (limit = 0%Z -> fst (fetch_recent_liked limit w) = Ok []).
Proof.
  intros response retained. split; [|split; [|split]].
  - unfold retained, slice_to.
    destruct (limit <? 0)%Z; eexists; symmetry; apply firstn_skipn.
  - unfold retained, slice_to.
    destruct (Z.ltb_spec limit 0); rewrite length_firstn; lia.
  - intros parsed Hp. apply parse_saved_Ok. exact Hp.
  - intros ->. reflexivity.
Qed.

End LikesRun.

(** Limit 2 on the mock response: a heading, two lines, an empty line. *)
Lemma likes_main_prints_the_entries_witness :
  let w := mock_world [str "recent_likes.py"; str "2"] mock_sp in
  fst (@likes_main example_python w) = Ok tt /\
  requests (w_sp (snd (@likes_main example_python w))) = [GetSavedTracks 2] /\
  w_out (snd (@likes_main example_python w))
  = [ [10%N] ++ str "Your 2 most-recent liked songs:" ++ [10%N];
      str " 1. 0 " ++ [em_dash] ++ str " A, B (added 2024-01-02 03:04)";
      str " 2. 1 " ++ [em_dash] ++ str " A, B (added 2024-01-02 03:04)";
      [] ].
Proof.
  intros w.
  destruct (@likes_main_prints_the_entries example_python w (str "2") 2
              (List.map (fun k => mkLiked (Some (dec k)) (str "A, B")
                                          (mkDatetime 2024 1 2 3 4 5)
                                          (str "https://open.spotify.com/track/"
                                             ++ dec k))
                        [0; 1]))
    as (Hok & Hreq & Hout); try (vm_compute; reflexivity).
  split; [exact Hok|]. split; [exact Hreq|].
  rewrite Hout. vm_compute. reflexivity.
Defined.

(** The second of three records carries the timestamp ["yesterday"]. *)
Lemma malformed_timestamp_ends_the_run_witness :
  let w := mock_world [str "recent_likes.py"; str "3"] bad_timestamp_sp in
  @likes_main example_python w
  = (Raise (ValueError (str "Invalid isoformat string: 'yesterday'")),
     set_sp (issue (GetSavedTracks 3) bad_timestamp_sp) w) /\
  w_out (snd (@likes_main example_python w)) = [].
Proof.
  intros w.
  destruct (@malformed_timestamp_ends_the_run example_python w (str "3") 3
              [mock_saved 0] [mock_saved 2]
              (mkSavedItem (str "yesterday") (mock_track (str "x"))))
    as (_ & Hrun & Hout); try (vm_compute; reflexivity).
  - constructor; [|constructor]. eexists. vm_compute. reflexivity.
  - split; [exact Hrun|exact Hout].
Defined.

(** ** The file script: which elements, which values, which worksheet *)

Lemma filter_flat_map {A B} (f : B -> bool) (g : A -> list B) l :
  List.filter f (List.flat_map g l)
  = List.flat_map (fun a => List.filter f (g a)) l.
Proof.
  induction l as [|a l IH]; simpl; [reflexivity|].
  now rewrite List.filter_app, IH.
Qed.

(** The track elements are looked for below the root, at any depth and
    in document order: the rows of a document are, child after child,
    the row of the child if it is a TRACK element followed by the rows
    found inside it.  The root itself never gives a row, whatever its
    tag. *)
Theorem rows_follow_the_document (tg : pystr) (a : gmap pystr pystr)
        (cs : list Element) :
  findall_desc (str "TRACK") (Elem tg a cs)
  = List.flat_map
      (fun c => (if pystr_eqb (tag_of c) (str "TRACK") then [c] else [])
                  ++ findall_desc (str "TRACK") c)
      cs /\
  xml_rows (Elem tg a cs)
  = List.flat_map
      (fun c => (if pystr_eqb (tag_of c) (str "TRACK")
                 then [track_row c] else [])
                  ++ xml_rows c)
      cs /\
  xml_rows (Elem tg a []) = [].
Proof.
  assert (Hfind : forall t,
             findall_desc t (Elem tg a cs)
             = List.flat_map
                 (fun c => (if pystr_eqb (tag_of c) t then [c] else [])
                             ++ findall_desc t c)
                 cs).
  { intros t. unfold findall_desc. cbn [descendants].
    rewrite filter_flat_map. apply List.flat_map_ext. intros c.
    cbn [List.filter]. now destruct (pystr_eqb (tag_of c) t). }
  split; [apply Hfind|]. split; [|reflexivity].
  unfold xml_rows. rewrite !collect_rows_acc. cbn [app].
  rewrite Hfind. clear Hfind.
  induction cs as [|c cs IH]; cbn [List.flat_map List.map]; [reflexivity|].
  rewrite !List.map_app, IH, collect_rows_acc. cbn [app].
  now destruct (pystr_eqb (tag_of c) (str "TRACK")).
Qed.

(** A row is made of the values of the eleven listed attributes and of
    nothing else: two elements give the same row exactly when they agree
    on those values, an absent one counting as the empty string.  So an
    attribute outside the list never shows, and an attribute set to the
    empty string cannot be told from a missing one. *)
Theorem row_depends_on_listed_attributes (t t' : Element) :
  (track_row t = track_row t' <->
   forall f, List.In f FIELDS ->
             get_default (attrib_of t) f = get_default (attrib_of t') f) /\
  (forall k v, ~ List.In k FIELDS ->
               track_row (Elem (tag_of t) (<[k := v]> (attrib_of t)) [])
               = track_row t) /\
  (forall f, track_row (Elem (tag_of t) (<[f := []]> (attrib_of t)) [])
             = track_row (Elem (tag_of t) (delete f (attrib_of t)) [])).
Proof.
  assert (Hiff : forall e e',
             track_row e = track_row e' <->
             forall f, List.In f FIELDS ->
                       get_default (attrib_of e) f
                       = get_default (attrib_of e') f).
  { intros e e'. unfold track_row. apply List.map_ext_in_iff. }
  split; [apply Hiff|]. split.
  - intros k v Hk. apply Hiff. intros f Hf. cbn [attrib_of].
    unfold get_default. rewrite lookup_insert_ne; [reflexivity|].
    intros ->. contradiction.
  - intros f. apply Hiff. intros g _. cbn [attrib_of]. unfold get_default.
    destruct (decide (f = g)) as [->|Hne].
    + now rewrite lookup_insert_eq, lookup_delete_eq.
    + now rewrite lookup_insert_ne, lookup_delete_ne.
Qed.

Lemma strftime_ymd d :
  strftime (str "%Y-%m-%d") d
  = pad_left 48 4 (dec (year d)) ++ str "-" ++ pad_left 48 2 (dec (month d))
      ++ str "-" ++ pad_left 48 2 (dec (day d)).
Proof. simpl. now rewrite app_nil_r. Qed.

(** The worksheet of the file script is named after the day alone, so a
    second export on the same day, at any hour and from any document,
    replaces the first: it deletes that day's worksheet, and the
    spreadsheet ends with the worksheets it had before the first export
    plus the day's worksheet holding the second document. *)
Theorem same_day_export_replaces (w w2 : World) :
  first_unset (w_env w) xml_required_vars = None ->
  first_unset (w_env w2) xml_required_vars = None ->
  w_ss w2 = w_ss (snd (xml_to_sheets w)) ->
  year (w_now w2) = year (w_now w) ->
  month (w_now w2) = month (w_now w) ->
  day (w_now w2) = day (w_now w) ->
  let date := xml_sheet_name w in
  let n2 := List.length (xml_rows (w_xml w2)) in
  xml_sheet_name w2 = date /\
  ops (w_ss (snd (xml_to_sheets w2)))
  = ops (w_ss w2)
      ++ [ DelWorksheet date;
           AddWorksheet date (n2 + 1) (List.length FIELDS);
           UpdateCells date (xml_payload (w_xml w2)) ] /\
  worksheets (w_ss (snd (xml_to_sheets w2)))
  = <[date := mkWorksheet (n2 + 1) (List.length FIELDS)
                          (xml_payload (w_xml w2))]>
      (worksheets (w_ss w)).
Proof.
  intros Henv Henv2 Hss Hy Hm Hd date n2.
  assert (Hname : xml_sheet_name w2 = date).
  { unfold date, xml_sheet_name. rewrite !strftime_ymd.
    now rewrite Hy, Hm, Hd. }
  split; [exact Hname|].
  rewrite (xml_to_sheets_run w2 Henv2). unfold replaced.
  cbn [snd w_ss set_out set_ss worksheets ops]. rewrite Hname, Hss.
  rewrite (xml_to_sheets_run w Henv). unfold replaced.
  cbn [snd w_ss set_out set_ss worksheets ops]. fold date.
  split.
  - f_equal. unfold deletion_ops. now rewrite lookup_insert_eq.
  - apply insert_insert_eq.
Qed.

(** An empty document exported at 10:30, then a document with three
    tracks at 23:59 of the same day. *)
Lemma same_day_export_replaces_witness :
  let w := mock_world [] mock_sp in
  let w2 := mkWorld mock_env [] [] (mkDatetime 2025 4 26 23 59 0)
                    mock_xml_tracks mock_sp
                    (w_ss (snd (xml_to_sheets w))) [] in
  xml_sheet_name w2 = str "2025-04-26" /\
  worksheets (w_ss (snd (xml_to_sheets w2))) !! str "2025-04-26"
  = Some (mkWorksheet 4 11 (xml_payload mock_xml_tracks)).
Proof.
  intros w w2.
  destruct (same_day_export_replaces w w2)
    as (Hname & _ & Hsheets); try (vm_compute; reflexivity).
  split; [exact Hname|]. rewrite Hsheets.
  replace (xml_sheet_name w) with (str "2025-04-26")
    by (vm_compute; reflexivity).
  rewrite lookup_insert_eq. vm_compute. reflexivity.
Defined.

(** ** Pages and their boundaries *)

Lemma get_playlist_data_linked playlist_url playlist_id sp :
  extract_playlist_id playlist_url = Ok playlist_id ->
  well_linked (first_page sp :: later_pages sp) ->
  fst (get_playlist_data playlist_url sp)
  = Ok (playlist_name sp,
        append_items []
          (List.flat_map items (first_page sp :: later_pages sp))).
Proof.
  intros Hid W. unfold get_playlist_data. rewrite Hid.
  cbn [sp_playlist sp_playlist_tracks].
  edestruct (page_loop_chain (first_page sp :: later_pages sp) []
               (first_page sp) (later_pages sp) []
               (issue (GetPlaylistTracks playlist_id)
                      (issue (GetPlaylist playlist_id) sp)))
    as (sp' & Hrun & _); [now rewrite app_nil_r|exact W|reflexivity|].
  cbn [later_pages issue first_page] in *. rewrite Hrun. cbn [fst app].
  now rewrite flat_map_page_entries.
Qed.

(** How the service cuts a playlist into pages does not show in the
    result: two linked page sequences that carry the same records in
    the same order give the same entries. *)
Theorem page_boundaries_do_not_matter (playlist_url playlist_id : pystr)
        (sp1 sp2 : Spotify) :
  extract_playlist_id playlist_url = Ok playlist_id ->
  well_linked (first_page sp1 :: later_pages sp1) ->
  well_linked (first_page sp2 :: later_pages sp2) ->
  playlist_name sp1 = playlist_name sp2 ->
  List.flat_map items (first_page sp1 :: later_pages sp1)
  = List.flat_map items (first_page sp2 :: later_pages sp2) ->
  fst (get_playlist_data playlist_url sp1)
  = fst (get_playlist_data playlist_url sp2).
Proof.
  intros Hid W1 W2 Hname Hitems.
  rewrite (get_playlist_data_linked _ _ sp1 Hid W1).
  rewrite (get_playlist_data_linked _ _ sp2 Hid W2).
  now rewrite Hname, Hitems.
Qed.

(** Four records in two pages, or in one. *)
Lemma page_boundaries_do_not_matter_witness :
  fst (get_playlist_data mock_url mock_sp)
  = fst (get_playlist_data mock_url mock_sp_one_page).
Proof.
  apply (page_boundaries_do_not_matter mock_url
           (str "37i9dQZF1DX0XUsuxWHRQd")).
  - vm_compute. reflexivity.
  - simpl. split; reflexivity.
  - reflexivity.
  - reflexivity.
  - vm_compute. reflexivity.
Defined.
